(** * Shared request middleware of the edge functions, and the endpoints built on it

    A shallow embedding of [supabase/functions/_shared/middleware.ts], of the
    [get-user] and [login] endpoints that run on [withMiddleware], and of the
    stand-alone registration endpoint with its compensating account deletion.

    JavaScript strings are sequences of code units; they are embedded as
    [string], one [ascii] per code unit below 256. The values that travel
    through [any]-typed positions (parsed JSON, data-store rows, provider
    replies) are embedded as [value]. Numbers are restricted to integers. *)

From Stdlib Require Import String Ascii List ZArith Bool Lia.
From Stdlib Require Import Numbers.DecimalString.
Import ListNotations.
Open Scope string_scope.
Set Warnings "-register-all".

(** ** String primitives of the runtime *)

(** [s.startsWith(p)] *)
Definition startsWith (s p : string) : bool := String.prefix p s.

(** [s.includes(needle)]: [needle] occurs at some offset of [s]. *)
Fixpoint includes (s needle : string) : bool :=
  String.prefix needle s
  || match s with
     | EmptyString => false
     | String _ rest => includes rest needle
     end.

(** The string without its first [n] code units. *)
Fixpoint drop (n : nat) (s : string) : string :=
  match n, s with
  | O, _ => s
  | S _, EmptyString => EmptyString
  | S k, String _ rest => drop k rest
  end.

(** [s.replace(pat, rep)] with a string pattern: only the first occurrence is
    replaced ([rep] holds no dollar pattern in this code base). *)
Fixpoint replace (s pat rep : string) : string :=
  if String.prefix pat s then rep ++ drop (String.length pat) s
  else match s with
       | EmptyString => EmptyString
       | String c rest => String c (replace rest pat rep)
       end.

(** White space and line terminators among the code units below 256:
    TAB, LF, VT, FF, CR, SP and NBSP. *)
Definition is_white_space (c : ascii) : bool :=
  let n := nat_of_ascii c in
  (Nat.leb 9 n && Nat.leb n 13) || Nat.eqb n 32 || Nat.eqb n 160.

Fixpoint trimStart (s : string) : string :=
  match s with
  | EmptyString => EmptyString
  | String c rest => if is_white_space c then trimStart rest else s
  end.

Fixpoint trimEnd (s : string) : string :=
  match s with
  | EmptyString => EmptyString
  | String c rest =>
      match trimEnd rest with
      | EmptyString => if is_white_space c then EmptyString else String c EmptyString
      | kept => String c kept
      end
  end.

(** [s.trim()] *)
Definition trim (s : string) : string := trimEnd (trimStart s).

(** [list.join(sep)] on a list of strings. *)
Fixpoint join (sep : string) (l : list string) : string :=
  match l with
  | [] => EmptyString
  | [x] => x
  | x :: rest => x ++ sep ++ join sep rest
  end.

(** Decimal rendering of an integer, as [String(n)] gives it. *)
Definition Z_to_string (n : Z) : string := NilZero.string_of_int (Z.to_int n).

(** ** Values *)

Inductive value : Type :=
| VUndefined
| VNull
| VBool (b : bool)
| VNum (n : Z)
| VStr (s : string)
| VArr (items : list value)
| VObj (props : list (string * value)).

(** Truthiness, as [!v], [a || b] and [if (v)] test it. *)
Definition truthy (v : value) : bool :=
  match v with
  | VUndefined | VNull => false
  | VBool b => b
  | VNum n => negb (Z.eqb n 0)
  | VStr s => negb (String.eqb s EmptyString)
  | VArr _ | VObj _ => true
  end.

(** Lookup of a key among the own properties of an object (keys are unique). *)
Fixpoint lookup {A : Type} (k : string) (props : list (string * A)) : option A :=
  match props with
  | [] => None
  | (k', v) :: rest => if String.eqb k k' then Some v else lookup k rest
  end.

(** [a || b] on values. *)
Definition or_else (a b : value) : value := if truthy a then a else b.

(** [a === b]. Two arrays or two objects are the same only when they are the
    same reference; the operands compared in this code base come from two
    different parsed replies, so they never are. *)
Definition strict_eq (a b : value) : bool :=
  match a, b with
  | VUndefined, VUndefined => true
  | VNull, VNull => true
  | VBool x, VBool y => Bool.eqb x y
  | VNum x, VNum y => Z.eqb x y
  | VStr x, VStr y => String.eqb x y
  | _, _ => false
  end.

(** [String(v)], the conversion a template literal and [new Error(v)] apply. *)
Fixpoint to_string (v : value) : string :=
  match v with
  | VUndefined => "undefined"
  | VNull => "null"
  | VBool true => "true"
  | VBool false => "false"
  | VNum n => Z_to_string n
  | VStr s => s
  | VArr items =>
      join ","
        (map (fun x => match x with
                       | VUndefined | VNull => EmptyString
                       | _ => to_string x
                       end) items)
  | VObj _ => "[object Object]"
  end.

(** *** JSON.stringify *)

Definition dquote : ascii := ascii_of_nat 34.
Definition backslash : ascii := ascii_of_nat 92.

Definition hex_digit (n : nat) : ascii :=
  if Nat.ltb n 10 then ascii_of_nat (48 + n) else ascii_of_nat (87 + n).

(** One code unit inside a JSON string literal. *)
Definition quote_char (c : ascii) : string :=
  let n := nat_of_ascii c in
  if Nat.eqb n 34 then String backslash (String dquote EmptyString)
  else if Nat.eqb n 92 then String backslash (String backslash EmptyString)
  else if Nat.eqb n 8 then String backslash "b"
  else if Nat.eqb n 9 then String backslash "t"
  else if Nat.eqb n 10 then String backslash "n"
  else if Nat.eqb n 12 then String backslash "f"
  else if Nat.eqb n 13 then String backslash "r"
  else if Nat.ltb n 32 then
    String backslash
      ("u00" ++ String (hex_digit (n / 16)) (String (hex_digit (n mod 16)) EmptyString))
  else String c EmptyString.

Fixpoint quote_chars (s : string) : string :=
  match s with
  | EmptyString => EmptyString
  | String c rest => quote_char c ++ quote_chars rest
  end.

Definition quote (s : string) : string :=
  String dquote (quote_chars s ++ String dquote EmptyString).

(** The serialisation of a value; [None] is the [undefined] that
    [JSON.stringify(undefined)] returns. A property whose value is [undefined]
    is left out of an object, and rendered [null] inside an array. *)
Fixpoint JSON_stringify (v : value) : option string :=
  match v with
  | VUndefined => None
  | VNull => Some "null"
  | VBool true => Some "true"
  | VBool false => Some "false"
  | VNum n => Some (Z_to_string n)
  | VStr s => Some (quote s)
  | VArr items =>
      Some ("[" ++ join ","
                     (map (fun x => match JSON_stringify x with
                                    | Some t => t
                                    | None => "null"
                                    end) items) ++ "]")
  | VObj props =>
      Some ("{" ++ join ","
                     (flat_map (fun kv => match JSON_stringify (snd kv) with
                                          | Some t => [quote (fst kv) ++ ":" ++ t]
                                          | None => []
                                          end) props) ++ "}")
  end.

(** [v.length] and [v[0]], for the values that have them. *)
Definition length_of (v : value) : value :=
  match v with
  | VArr items => VNum (Z.of_nat (List.length items))
  | VStr s => VNum (Z.of_nat (String.length s))
  | VObj props => match lookup "length" props with Some x => x | None => VUndefined end
  | _ => VUndefined
  end.

Definition first_of (v : value) : value :=
  match v with
  | VArr (x :: _) => x
  | VStr (String c _) => VStr (String c EmptyString)
  | VObj props => match lookup "0" props with Some x => x | None => VUndefined end
  | _ => VUndefined
  end.

(** ** Failures, effects and the outside world *)

(** What a [throw] (or a rejected promise) carries: an [Error] instance with
    its message, or any other value. *)
Inductive thrown : Type :=
| ErrorObject (message : string)
| Thrown (v : value).

Inductive outcome (A : Type) : Type :=
| Ok (a : A)
| Throw (e : thrown).
Arguments Ok {A} a.
Arguments Throw {A} e.

(** What a call into the runtime or a client library settles to: such calls
    fail with [Error] instances only. *)
Inductive builtin (A : Type) : Type :=
| Returns (a : A)
| Raises (message : string).
Arguments Returns {A} a.
Arguments Raises {A} message.

(** The calls that leave the process, in the order they are issued. *)
Inductive event : Type :=
| EFetch (url : string) (body : option string)
| ESelect (table column : string) (key : value)
| EInsert (table : string) (row : value).

(** A computation reads the trace of calls issued so far and yields its
    outcome with the extended trace. Every computation of this file settles;
    a call that never answers is outside the model. *)
Definition M (A : Type) : Type := list event -> outcome A * list event.

Definition ret {A : Type} (a : A) : M A := fun t => (Ok a, t).
Definition throw {A : Type} (e : thrown) : M A := fun t => (Throw e, t).
Definition bind {A B : Type} (m : M A) (f : A -> M B) : M B :=
  fun t => match m t with
           | (Ok a, t') => f a t'
           | (Throw e, t') => (Throw e, t')
           end.
Definition try_catch {A : Type} (m : M A) (handler : thrown -> M A) : M A :=
  fun t => match m t with
           | (Ok a, t') => (Ok a, t')
           | (Throw e, t') => handler e t'
           end.
Definition emit (e : event) : M unit := fun t => (Ok tt, (t ++ [e])%list).
Definition lift {A : Type} (b : builtin A) : M A :=
  match b with
  | Returns a => ret a
  | Raises message => throw (ErrorObject message)
  end.

Declare Scope js_scope.
Delimit Scope js_scope with js.
Notation "x <- m ;; k" := (bind m (fun x => k))
  (at level 61, m at next level, right associativity) : js_scope.
Notation "m ;; k" := (bind m (fun _ => k))
  (at level 61, right associativity) : js_scope.
Open Scope js_scope.

(** [new Error(v)]: the message is [String(v)], and empty when [v] is
    [undefined]. *)
Definition error_message (v : value) : string :=
  match v with
  | VUndefined => EmptyString
  | _ => to_string v
  end.

Definition new_Error (v : value) : thrown := ErrorObject (error_message v).

(** The TypeError a property read on [null] or [undefined] raises. *)
Definition type_error_read (v : value) (k : string) : thrown :=
  ErrorObject ("Cannot read properties of " ++ to_string v ++ " (reading '" ++ k ++ "')").

Definition nullish (v : value) : bool :=
  match v with
  | VUndefined | VNull => true
  | _ => false
  end.

(** The property [k] of a value that is neither [null] nor [undefined]. The
    keys read in this code base are never [length] nor an index, so a
    primitive or an array answers [undefined]. *)
Definition prop (v : value) (k : string) : value :=
  match v with
  | VObj props => match lookup k props with Some x => x | None => VUndefined end
  | _ => VUndefined
  end.

(** [v.k] *)
Definition get_prop (v : value) (k : string) : M value :=
  if nullish v then throw (type_error_read v k) else ret (prop v k).

(** [v?.k] *)
Definition opt_get (v : value) (k : string) : M value :=
  if nullish v then ret VUndefined else ret (prop v k).

(** [error.message] on a caught value. *)
Definition message_of (error : thrown) : M value :=
  match error with
  | ErrorObject message => ret (VStr message)
  | Thrown v => get_prop v "message"
  end.

(** [recv.includes(needle)]: the string method, the array method, and the
    TypeError of a receiver that has no such method. *)
Definition includes_method (recv : value) (needle : string) : M bool :=
  match recv with
  | VStr s => ret (includes s needle)
  | VArr items => ret (existsb (fun x => strict_eq x (VStr needle)) items)
  | VUndefined | VNull => throw (type_error_read recv "includes")
  | _ => throw (ErrorObject "error.message.includes is not a function")
  end.

Record DbResult : Type := { data : value; error : value }.

(** The data-store client, by the two query chains this code base issues. *)
Record SupabaseClient : Type := {
  (* from(table).select('*').eq(column, key).single() *)
  select_eq_single : string -> string -> value -> DbResult;
  (* from(table).insert(row).select().single() *)
  insert_select_single : string -> value -> DbResult
}.

Record FetchResponse : Type := { ok : bool; res_json : builtin value }.

Record URL : Type := { searchParams : list (string * string) }.

Record Request : Type := {
  method : string;
  req_url : string;
  (* req.headers.get('Authorization') *)
  authorization : option string;
  (* await req.json() *)
  req_json : builtin value
}.

Record World : Type := {
  env : list (string * string);
  createClient : string -> string -> builtin SupabaseClient;
  fetch_reply : string -> option string -> builtin FetchResponse;
  new_URL : string -> builtin URL
}.

(** [Deno.env.get(k)] *)
Definition Deno_env_get (w : World) (k : string) : option string := lookup k (env w).

(** [!s] on a string that may be [undefined] or [null]. *)
Definition absent (o : option string) : bool :=
  match o with
  | None => true
  | Some s => String.eqb s EmptyString
  end.

(** [await fetch(url, { method: 'POST', headers, body })] *)
Definition fetch (w : World) (url : string) (body : option string) : M FetchResponse :=
  emit (EFetch url body) ;; lift (fetch_reply w url body).

Definition select_single (c : SupabaseClient) (table column : string) (key : value)
  : M DbResult :=
  emit (ESelect table column key) ;; ret (select_eq_single c table column key).

Definition insert_single (c : SupabaseClient) (table : string) (row : value)
  : M DbResult :=
  emit (EInsert table row) ;; ret (insert_select_single c table row).

(** ** Responses *)

Definition Headers : Type := list (string * string).

Record Response : Type := { body : string; status : Z; headers : Headers }.

(** [new Response(body, { status, headers })]; the status defaults to 200 and
    an [undefined] body is empty. *)
Definition body_text (b : option string) : string :=
  match b with
  | Some s => s
  | None => EmptyString
  end.

Definition new_Response (b : option string) (st : option Z) (h : Headers) : Response :=
  {| body := body_text b;
     status := match st with Some n => n | None => 200%Z end;
     headers := h |}.

Fixpoint assign (o : Headers) (k v : string) : Headers :=
  match o with
  | [] => [(k, v)]
  | (k', v') :: rest =>
      if String.eqb k k' then (k, v) :: rest else (k', v') :: assign rest k v
  end.

(** The object spread of [a] then [b]: later keys override, in place. *)
Definition spread (a b : Headers) : Headers :=
  fold_left (fun o kv => assign o (fst kv) (snd kv)) b a.

(** A template literal's rendering of a string that may be [undefined]. *)
Definition str_of (o : option string) : string :=
  match o with
  | Some s => s
  | None => "undefined"
  end.

(** [o ?? d] *)
Definition nullish_or (o : option string) (d : string) : string :=
  match o with
  | Some s => s
  | None => d
  end.

(** ** _shared/middleware.ts *)

Record MiddlewareContext : Type := {
  firebaseUser : value;            (* [undefined] until authentication sets it *)
  supabaseClient : SupabaseClient;
  url : URL
}.

Definition corsHeaders : Headers :=
  [ ("Access-Control-Allow-Origin", "*");
    ("Access-Control-Allow-Headers", "authorization, x-client-info, apikey, content-type");
    ("Access-Control-Allow-Methods", "GET, POST, PUT, DELETE, OPTIONS");
    ("Content-Type", "application/json") ].

Definition handleCorsPreflightRequest (req : Request) : option Response :=
  if String.eqb (method req) "OPTIONS"
  then Some (new_Response (Some "ok") None corsHeaders)
  else None.

(** [status] defaults to 400 and [additionalHeaders] to the empty object. *)
Definition createErrorResponse (message : value) (status : option Z)
    (additionalHeaders : option Headers) : Response :=
  new_Response
    (JSON_stringify (VObj [("error", message)]))
    (Some (match status with Some n => n | None => 400%Z end))
    (spread corsHeaders (match additionalHeaders with Some h => h | None => [] end)).

(** [status] defaults to 200 and [additionalHeaders] to the empty object. *)
Definition createSuccessResponse (data : value) (status : option Z)
    (additionalHeaders : option Headers) : Response :=
  new_Response
    (JSON_stringify data)
    (Some (match status with Some n => n | None => 200%Z end))
    (spread corsHeaders (match additionalHeaders with Some h => h | None => [] end)).

Definition createSupabaseClient (w : World) : M SupabaseClient :=
  let supabaseUrl := Deno_env_get w "SUPABASE_URL" in
  let supabaseServiceKey := Deno_env_get w "SUPABASE_SERVICE_ROLE_KEY" in
  if absent supabaseUrl || absent supabaseServiceKey then
    throw (ErrorObject
      "Missing Supabase configuration: SUPABASE_URL and SUPABASE_SERVICE_ROLE_KEY are required")
  else lift (createClient w (str_of supabaseUrl) (str_of supabaseServiceKey)).

Definition lookup_url (key : string) : string :=
  "https://identitytoolkit.googleapis.com/v1/accounts:lookup?key=" ++ key.

Definition verifyFirebaseToken (w : World) (token : string) : M value :=
  let firebaseWebApiKey := Deno_env_get w "FIREBASE_WEB_API_KEY" in
  if absent firebaseWebApiKey then
    throw (ErrorObject "Firebase Web API Key not configured")
  else
    try_catch
      (response <- fetch w (lookup_url (str_of firebaseWebApiKey))
                     (JSON_stringify (VObj [("idToken", VStr token)])) ;;
       if negb (ok response) then
         errorData <- lift (res_json response) ;;
         e <- get_prop errorData "error" ;;
         m <- opt_get e "message" ;;
         throw (new_Error (or_else m (VStr "Invalid or expired token")))
       else
         data <- lift (res_json response) ;;
         users <- get_prop data "users" ;;
         if negb (truthy users) || strict_eq (length_of users) (VNum 0) then
           throw (ErrorObject "Invalid token: No user found")
         else ret (first_of users))
      (fun error =>
         m <- message_of error ;;
         throw (ErrorObject ("Firebase token verification failed: " ++ to_string m))).

Definition extractAndVerifyToken (w : World) (req : Request) : M value :=
  let authHeader := authorization req in
  if absent authHeader || negb (startsWith (str_of authHeader) "Bearer ") then
    throw (ErrorObject "Unauthorized: No valid Bearer token provided")
  else
    let token := trim (replace (str_of authHeader) "Bearer " EmptyString) in
    if String.eqb token EmptyString then
      throw (ErrorObject "Unauthorized: Empty token provided")
    else verifyFirebaseToken w token.

Definition signIn_url (key : string) : string :=
  "https://identitytoolkit.googleapis.com/v1/accounts:signInWithPassword?key=" ++ key.

Definition authenticateWithFirebase (w : World) (email password : value) : M value :=
  let firebaseWebApiKey := Deno_env_get w "FIREBASE_WEB_API_KEY" in
  if absent firebaseWebApiKey then
    throw (ErrorObject "Firebase Web API Key not configured")
  else
    response <- fetch w (signIn_url (str_of firebaseWebApiKey))
                  (JSON_stringify (VObj [("email", email); ("password", password);
                                         ("returnSecureToken", VBool true)])) ;;
    if negb (ok response) then
      errorData <- lift (res_json response) ;;
      e <- get_prop errorData "error" ;;
      m <- opt_get e "message" ;;
      throw (new_Error (or_else m (VStr "Invalid login credentials")))
    else lift (res_json response).

(** [requiredFields.filter(field => !data[field])] *)
Fixpoint missing_fields (data : value) (requiredFields : list string) : M (list string) :=
  match requiredFields with
  | [] => ret []
  | field :: rest =>
      v <- get_prop data field ;;
      others <- missing_fields data rest ;;
      ret (if truthy v then others else field :: others)
  end.

Definition validateRequiredFields (data : value) (requiredFields : list string) : M unit :=
  missingFields <- missing_fields data requiredFields ;;
  if Nat.ltb 0 (List.length missingFields) then
    throw (ErrorObject ("Missing required fields: " ++ join ", " missingFields))
  else ret tt.

Definition getRequiredQueryParam (u : URL) (paramName : string) : M string :=
  let found := lookup paramName (searchParams u) in
  if absent found then
    throw (ErrorObject ("Missing required query parameter: " ++ paramName))
  else ret (str_of found).

Record Options : Type := {
  requireAuth : bool;   (* an option left out reads [undefined], that is [false] *)
  validateEnv : bool
}.

Definition requiredEnvVars : list string :=
  ["SUPABASE_URL"; "SUPABASE_SERVICE_ROLE_KEY"; "FIREBASE_WEB_API_KEY"].

(** The [catch] block of [withMiddleware] (the [console.error] line writes to
    the log only). *)
Definition error_to_response (error : thrown) : M Response :=
  message <- message_of error ;;
  unauthorized <- includes_method message "Unauthorized" ;;
  if unauthorized then ret (createErrorResponse message (Some 401%Z) None)
  else
    missing <- includes_method message "Missing required" ;;
    if missing then ret (createErrorResponse message (Some 400%Z) None)
    else
      lower <- includes_method message "not found" ;;
      notFound <- (if lower then ret true else includes_method message "Not found") ;;
      if notFound then ret (createErrorResponse message (Some 404%Z) None)
      else
        forbidden <- includes_method message "Forbidden" ;;
        if forbidden then ret (createErrorResponse message (Some 403%Z) None)
        else ret (createErrorResponse
                    (or_else message (VStr "Internal server error")) (Some 500%Z) None).

Definition Handler : Type := Request -> MiddlewareContext -> M Response.

Definition missingEnvVars (w : World) : list string :=
  filter (fun envVar => absent (Deno_env_get w envVar)) requiredEnvVars.

(** Validation of the environment variables, when the endpoint asks for it. *)
Definition validate_env (w : World) (options : Options) : M unit :=
  if validateEnv options then
    if Nat.ltb 0 (List.length (missingEnvVars w)) then
      throw (ErrorObject
        ("Missing environment variables: " ++ join ", " (missingEnvVars w)))
    else ret tt
  else ret tt.

(** Creation of the context: the data-store client, then the parsed URL. *)
Definition create_context (w : World) (req : Request) : M MiddlewareContext :=
  client <- createSupabaseClient w ;;
  u <- lift (new_URL w (req_url req)) ;;
  ret {| firebaseUser := VUndefined; supabaseClient := client; url := u |}.

(** Authentication, when the endpoint asks for it. *)
Definition authenticate (w : World) (req : Request) (options : Options)
    (context : MiddlewareContext) : M MiddlewareContext :=
  if requireAuth options then
    user <- extractAndVerifyToken w req ;;
    ret {| firebaseUser := user;
           supabaseClient := supabaseClient context;
           url := url context |}
  else ret context.

(** The [try] block of [withMiddleware]. *)
Definition pipeline (w : World) (req : Request) (handler : Handler)
    (options : Options) : M Response :=
  match handleCorsPreflightRequest req with
  | Some corsResponse => ret corsResponse
  | None =>
      validate_env w options ;;
      context <- create_context w req ;;
      context <- authenticate w req options context ;;
      handler req context
  end.

Definition withMiddleware (w : World) (req : Request) (handler : Handler)
    (options : Options) : M Response :=
  try_catch (pipeline w req handler options) error_to_response.

Definition sanitizeUserData (user : value) : M value :=
  id <- get_prop user "id" ;;
  name <- get_prop user "name" ;;
  email <- get_prop user "email" ;;
  firebase_uid <- get_prop user "firebase_uid" ;;
  created_at <- get_prop user "created_at" ;;
  updated_at <- get_prop user "updated_at" ;;
  ret (VObj [("id", id); ("name", name); ("email", email);
             ("firebase_uid", firebase_uid); ("created_at", created_at);
             ("updated_at", updated_at)]).

(** ** get-user/index.ts, the endpoint on the shared pipeline *)

Definition get_user_handler (req : Request) (context : MiddlewareContext) : M Response :=
  userId <- getRequiredQueryParam (url context) "id" ;;
  r <- select_single (supabaseClient context) "users" "id" (VStr userId) ;;
  let dbUser := data r in
  let dbError := error r in
  if truthy dbError || negb (truthy dbUser) then
    throw (ErrorObject "User not found")
  else
    owner <- get_prop dbUser "firebase_uid" ;;
    localId <- opt_get (firebaseUser context) "localId" ;;
    if negb (strict_eq owner localId) then
      throw (ErrorObject "Forbidden: You can only access your own user data")
    else
      user <- sanitizeUserData dbUser ;;
      email <- opt_get (firebaseUser context) "email" ;;
      uid <- opt_get (firebaseUser context) "localId" ;;
      ret (createSuccessResponse
             (VObj [("success", VBool true);
                    ("user", user);
                    ("authenticated_as", VObj [("email", email); ("firebase_uid", uid)])])
             None None).

Definition get_user (w : World) (req : Request) : M Response :=
  withMiddleware w req get_user_handler {| requireAuth := true; validateEnv := true |}.

(** ** login/index.ts, the endpoint on the shared pipeline *)

Definition login_handler (w : World) (req : Request) (context : MiddlewareContext)
  : M Response :=
  requestBody <- lift (req_json req) ;;
  email <- get_prop requestBody "email" ;;
  password <- get_prop requestBody "password" ;;
  validateRequiredFields requestBody ["email"; "password"] ;;
  user <- authenticateWithFirebase w email password ;;
  localId <- get_prop user "localId" ;;
  r <- select_single (supabaseClient context) "users" "firebase_uid" localId ;;
  let dbUser := data r in
  let dbError := error r in
  if truthy dbError || negb (truthy dbUser) then
    throw (ErrorObject "User not found in database")
  else
    sanitized <- sanitizeUserData dbUser ;;
    idToken <- get_prop user "idToken" ;;
    refreshToken <- get_prop user "refreshToken" ;;
    expiresIn <- get_prop user "expiresIn" ;;
    ret (createSuccessResponse
           (VObj [("success", VBool true);
                  ("user", sanitized);
                  ("firebase_token", idToken);
                  ("refresh_token", refreshToken);
                  ("expires_in", expiresIn)])
           None None).

Definition login (w : World) (req : Request) : M Response :=
  withMiddleware w req (login_handler w) {| requireAuth := false; validateEnv := true |}.

(** ** The registration endpoint (stand-alone, with its own CORS headers and
    its own [catch]) *)

Module Register.

Definition corsHeaders : Headers :=
  [ ("Access-Control-Allow-Origin", "*");
    ("Access-Control-Allow-Headers", "authorization, x-client-info, apikey, content-type") ].

Definition jsonHeaders : Headers :=
  spread corsHeaders [("Content-Type", "application/json")].

Definition signUp_url (key : string) : string :=
  "https://identitytoolkit.googleapis.com/v1/accounts:signUp?key=" ++ key.

Definition delete_url (key : string) : string :=
  "https://identitytoolkit.googleapis.com/v1/accounts:delete?key=" ++ key.

(** [v < k] for a number [k]. The left operand is a [length]: a number, or
    [undefined] (NaN, never smaller). A length that is itself a string, an
    array or an object -- only a password object with an own [length]
    property gives one -- is taken as NaN. *)
Definition less_than (v : value) (k : Z) : bool :=
  match v with
  | VNum n => Z.ltb n k
  | VNull => Z.ltb 0 k
  | VBool b => Z.ltb (if b then 1 else 0) k
  | _ => false
  end.

Definition error_body (message : value) : option string :=
  JSON_stringify (VObj [("error", message)]).

Definition serve (w : World) (req : Request) : M Response :=
  if String.eqb (method req) "OPTIONS" then
    ret (new_Response (Some "ok") None corsHeaders)
  else
    try_catch
      (requestBody <- lift (req_json req) ;;
       name <- get_prop requestBody "name" ;;
       email <- get_prop requestBody "email" ;;
       password <- get_prop requestBody "password" ;;
       if negb (truthy name) || negb (truthy email) || negb (truthy password) then
         ret (new_Response
                (error_body
                   (VStr "Missing required fields: name, email, and password are required"))
                (Some 400%Z) jsonHeaders)
       else if less_than (length_of password) 6 then
         ret (new_Response
                (error_body (VStr "Password must be at least 6 characters long"))
                (Some 400%Z) jsonHeaders)
       else
         let firebaseWebApiKey := Deno_env_get w "FIREBASE_WEB_API_KEY" in
         if absent firebaseWebApiKey then
           throw (ErrorObject "Firebase Web API Key not configured")
         else
           firebaseResponse <-
             fetch w (signUp_url (str_of firebaseWebApiKey))
               (JSON_stringify (VObj [("email", email); ("password", password);
                                      ("displayName", name);
                                      ("returnSecureToken", VBool true)])) ;;
           if negb (ok firebaseResponse) then
             errorData <- lift (res_json firebaseResponse) ;;
             e <- get_prop errorData "error" ;;
             m <- opt_get e "message" ;;
             throw (new_Error (or_else m (VStr "Failed to create Firebase user")))
           else
             user <- lift (res_json firebaseResponse) ;;
             client <- lift (createClient w
                               (nullish_or (Deno_env_get w "SUPABASE_URL") EmptyString)
                               (nullish_or (Deno_env_get w "SUPABASE_SERVICE_ROLE_KEY")
                                  EmptyString)) ;;
             localId <- get_prop user "localId" ;;
             r <- insert_single client "users"
                    (VObj [("name", name); ("email", email); ("firebase_uid", localId)]) ;;
             let dbUser := data r in
             let dbError := error r in
             if truthy dbError then
               (* rollback: delete the account that was just created *)
               idToken <- get_prop user "idToken" ;;
               fetch w (delete_url (str_of firebaseWebApiKey))
                 (JSON_stringify (VObj [("idToken", idToken)])) ;;
               m <- get_prop dbError "message" ;;
               throw (ErrorObject ("Database error: " ++ to_string m))
             else
               id <- get_prop dbUser "id" ;;
               dbName <- get_prop dbUser "name" ;;
               dbEmail <- get_prop dbUser "email" ;;
               firebase_uid <- get_prop dbUser "firebase_uid" ;;
               created_at <- get_prop dbUser "created_at" ;;
               ret (new_Response
                      (JSON_stringify
                         (VObj [("success", VBool true);
                                ("user", VObj [("id", id); ("name", dbName);
                                               ("email", dbEmail);
                                               ("firebase_uid", firebase_uid);
                                               ("created_at", created_at)])]))
                      (Some 201%Z) jsonHeaders))
      (fun error =>
         m <- message_of error ;;
         ret (new_Response
                (error_body
                   (or_else m (VStr "Internal server error during registration")))
                (Some 500%Z) jsonHeaders)).

End Register.

(** ** The error taxonomy in the words of the specification *)

(** The status a message gets: the first of the listed substrings it
    contains decides. *)
Definition spec_status (message : string) : Z :=
  if includes message "Unauthorized" then 401
  else if includes message "Missing required" then 400
  else if includes message "not found" || includes message "Not found" then 404
  else if includes message "Forbidden" then 403
  else 500.

(** The JSON envelope with the single key [error]. *)
Definition error_envelope (message : string) : string :=
  "{" ++ quote "error" ++ ":" ++ quote message ++ "}".

(** The message an error response shows: the caught one, or the fixed text
    that stands in for an empty one. *)
Definition shown_message (message : string) : string :=
  if String.eqb message EmptyString then "Internal server error" else message.

(** ** Concrete worlds and requests *)

Module Scenario.

Definition row : value :=
  VObj [("id", VNum 7); ("name", VStr "Ann"); ("email", VStr "ann@example.org");
        ("firebase_uid", VStr "uid-ann"); ("created_at", VStr "2024-01-01");
        ("updated_at", VStr "2024-02-02"); ("password_hash", VStr "s3cr3t")].

(** A store that finds [row] on every select and refuses every insert. *)
Definition store : SupabaseClient :=
  {| select_eq_single := fun _ _ _ => {| data := row; error := VNull |};
     insert_select_single := fun _ _ =>
       {| data := VNull; error := VObj [("message", VStr "duplicate key value")] |} |}.

Definition full_env : list (string * string) :=
  [("SUPABASE_URL", "https://db.example.org"); ("SUPABASE_SERVICE_ROLE_KEY", "service");
   ("FIREBASE_WEB_API_KEY", "webkey")].

Definition world (e : list (string * string))
    (reply : string -> option string -> builtin FetchResponse) : World :=
  {| env := e;
     createClient := fun _ _ => Returns store;
     fetch_reply := reply;
     new_URL := fun _ => Returns {| searchParams := [("id", "7")] |} |}.

Definition replies (ok_ : bool) (payload : value)
  : string -> option string -> builtin FetchResponse :=
  fun _ _ => Returns {| ok := ok_; res_json := Returns payload |}.

Definition no_accounts : value := VObj [("users", VArr [])].

Definition account (uid : string) : value :=
  VObj [("localId", VStr uid); ("email", VStr "ann@example.org");
        ("emailVerified", VBool true)].

Definition one_account (uid : string) : value := VObj [("users", VArr [account uid])].

Definition provider_error (message : string) : value :=
  VObj [("error", VObj [("code", VNum 400); ("message", VStr message)])].

Definition token_bundle : value :=
  VObj [("localId", VStr "uid-new"); ("idToken", VStr "fresh-token");
        ("refreshToken", VStr "refresh"); ("expiresIn", VStr "3600")].

Definition request (verb : string) (auth : option string) (payload : builtin value)
  : Request :=
  {| method := verb; req_url := "https://fn.example.org/get-user?id=7";
     authorization := auth; req_json := payload |}.

Definition no_body : builtin value := Raises "Unexpected end of JSON input".

Definition credentials : value :=
  VObj [("name", VStr "Ann"); ("email", VStr "ann@example.org");
        ("password", VStr "wrong-password")].

Definition answers (r : Response) : Handler := fun _ _ => ret r.
Definition fails (e : thrown) : Handler := fun _ _ => throw e.

Definition plain : Options := {| requireAuth := false; validateEnv := false |}.
Definition guarded : Options := {| requireAuth := true; validateEnv := true |}.
Definition validated : Options := {| requireAuth := false; validateEnv := true |}.
Definition authenticated : Options := {| requireAuth := true; validateEnv := false |}.

Definition env_without_url : list (string * string) :=
  [("SUPABASE_SERVICE_ROLE_KEY", "service"); ("FIREBASE_WEB_API_KEY", "webkey")].

End Scenario.

(** ** The outside calls, as they appear in a trace *)

Definition lookup_call (key token : string) : event :=
  EFetch (lookup_url key) (JSON_stringify (VObj [("idToken", VStr token)])).

Definition signIn_call (key : string) (email password : value) : event :=
  EFetch (signIn_url key)
    (JSON_stringify (VObj [("email", email); ("password", password);
                           ("returnSecureToken", VBool true)])).

Definition signUp_call (key : string) (name email password : value) : event :=
  EFetch (Register.signUp_url key)
    (JSON_stringify (VObj [("email", email); ("password", password);
                           ("displayName", name); ("returnSecureToken", VBool true)])).

Definition delete_call (key : string) (idToken : value) : event :=
  EFetch (Register.delete_url key) (JSON_stringify (VObj [("idToken", idToken)])).

(** Whether an outside call is one to the provider's account-deletion
    endpoint. *)
Definition is_delete_call (e : event) : bool :=
  match e with
  | EFetch u _ =>
      startsWith u "https://identitytoolkit.googleapis.com/v1/accounts:delete"
  | _ => false
  end.

(** The object [sanitizeUserData] builds from a row that is neither [null]
    nor [undefined]. *)
Definition sanitized_user (user : value) : value :=
  VObj [("id", prop user "id"); ("name", prop user "name"); ("email", prop user "email");
        ("firebase_uid", prop user "firebase_uid"); ("created_at", prop user "created_at");
        ("updated_at", prop user "updated_at")].

(** A computation that, when it fails, fails with an [Error] instance. *)
Definition throws_errors_only {A : Type} (m : M A) : Prop :=
  forall t v t', m t <> (Throw (Thrown v), t').

(** ** The get-user endpoint with the pipeline written in line (second part
    of login/index.ts) *)

Module InlineGetUser.

Definition corsHeaders : Headers :=
  [ ("Access-Control-Allow-Origin", "*");
    ("Access-Control-Allow-Headers", "authorization, x-client-info, apikey, content-type") ].

Definition jsonHeaders : Headers :=
  spread corsHeaders [("Content-Type", "application/json")].

Definition error_response (message : value) (code : Z) : Response :=
  new_Response (JSON_stringify (VObj [("error", message)])) (Some code) jsonHeaders.

(** This endpoint's own verification: no rethrow, fixed messages. *)
Definition verifyFirebaseToken (w : World) (token : string) : M value :=
  let firebaseWebApiKey := Deno_env_get w "FIREBASE_WEB_API_KEY" in
  if absent firebaseWebApiKey then
    throw (ErrorObject "Firebase Web API Key not configured")
  else
    response <- fetch w (lookup_url (str_of firebaseWebApiKey))
                  (JSON_stringify (VObj [("idToken", VStr token)])) ;;
    if negb (ok response) then throw (ErrorObject "Invalid or expired token")
    else
      data <- lift (res_json response) ;;
      users <- get_prop data "users" ;;
      if negb (truthy users) || strict_eq (length_of users) (VNum 0) then
        throw (ErrorObject "Invalid token")
      else ret (first_of users).

(** The inner [try]: the verified account, or the response its [catch]
    returns. *)
Definition verified_or_response (w : World) (token : string) : M (value + Response) :=
  try_catch
    (user <- verifyFirebaseToken w token ;; ret (inl user))
    (fun _ => ret (inr (error_response (VStr "Unauthorized: Invalid token") 401%Z))).

Definition serve (w : World) (req : Request) : M Response :=
  if String.eqb (method req) "OPTIONS" then
    ret (new_Response (Some "ok") None corsHeaders)
  else
    try_catch
      (let authHeader := authorization req in
       if absent authHeader || negb (startsWith (str_of authHeader) "Bearer ") then
         ret (error_response (VStr "Unauthorized: No token provided") 401%Z)
       else
         let token := replace (str_of authHeader) "Bearer " EmptyString in
         verified <- verified_or_response w token ;;
         match verified with
         | inr response => ret response
         | inl user =>
             u <- lift (new_URL w (req_url req)) ;;
             let userId := lookup "id" (searchParams u) in
             if absent userId then
               ret (error_response (VStr "Missing required parameter: id") 400%Z)
             else
               client <- lift (createClient w
                                 (nullish_or (Deno_env_get w "SUPABASE_URL") EmptyString)
                                 (nullish_or (Deno_env_get w "SUPABASE_SERVICE_ROLE_KEY")
                                    EmptyString)) ;;
               r <- select_single client "users" "id" (VStr (str_of userId)) ;;
               let dbUser := data r in
               let dbError := error r in
               if truthy dbError || negb (truthy dbUser) then
                 ret (error_response (VStr "User not found") 404%Z)
               else
                 owner <- get_prop dbUser "firebase_uid" ;;
                 localId <- get_prop user "localId" ;;
                 if negb (strict_eq owner localId) then
                   ret (error_response
                          (VStr "Forbidden: You can only access your own user data") 403%Z)
                 else
                   id <- get_prop dbUser "id" ;;
                   name <- get_prop dbUser "name" ;;
                   email <- get_prop dbUser "email" ;;
                   firebase_uid <- get_prop dbUser "firebase_uid" ;;
                   created_at <- get_prop dbUser "created_at" ;;
                   updated_at <- get_prop dbUser "updated_at" ;;
                   accountEmail <- get_prop user "email" ;;
                   accountId <- get_prop user "localId" ;;
                   ret (new_Response
                          (JSON_stringify
                             (VObj [("success", VBool true);
                                    ("user",
                                     VObj [("id", id); ("name", name); ("email", email);
                                           ("firebase_uid", firebase_uid);
                                           ("created_at", created_at);
                                           ("updated_at", updated_at)]);
                                    ("authenticated_as",
                                     VObj [("email", accountEmail);
                                           ("firebase_uid", accountId)])]))
                          (Some 200%Z) jsonHeaders)
         end)
      (fun error =>
         m <- message_of error ;;
         ret (error_response (or_else m (VStr "Internal server error")) 500%Z)).

End InlineGetUser.

(** ** The login endpoint with the pipeline written in line *)

Module InlineLogin.

Definition corsHeaders : Headers := InlineGetUser.corsHeaders.
Definition jsonHeaders : Headers := InlineGetUser.jsonHeaders.

Definition error_response (message : value) (code : Z) : Response :=
  new_Response (JSON_stringify (VObj [("error", message)])) (Some code) jsonHeaders.

Definition serve (w : World) (req : Request) : M Response :=
  if String.eqb (method req) "OPTIONS" then
    ret (new_Response (Some "ok") None corsHeaders)
  else
    try_catch
      (requestBody <- lift (req_json req) ;;
       email <- get_prop requestBody "email" ;;
       password <- get_prop requestBody "password" ;;
       if negb (truthy email) || negb (truthy password) then
         ret (error_response
                (VStr "Missing required fields: email and password are required") 400%Z)
       else
         let firebaseWebApiKey := Deno_env_get w "FIREBASE_WEB_API_KEY" in
         if absent firebaseWebApiKey then
           throw (ErrorObject "Firebase Web API Key not configured")
         else
           firebaseResponse <-
             fetch w (signIn_url (str_of firebaseWebApiKey))
               (JSON_stringify (VObj [("email", email); ("password", password);
                                      ("returnSecureToken", VBool true)])) ;;
           if negb (ok firebaseResponse) then
             errorData <- lift (res_json firebaseResponse) ;;
             e <- get_prop errorData "error" ;;
             m <- opt_get e "message" ;;
             ret (error_response (or_else m (VStr "Invalid login credentials")) 401%Z)
           else
             user <- lift (res_json firebaseResponse) ;;
             client <- lift (createClient w
                               (nullish_or (Deno_env_get w "SUPABASE_URL") EmptyString)
                               (nullish_or (Deno_env_get w "SUPABASE_SERVICE_ROLE_KEY")
                                  EmptyString)) ;;
             localId <- get_prop user "localId" ;;
             r <- select_single client "users" "firebase_uid" localId ;;
             let dbUser := data r in
             let dbError := error r in
             if truthy dbError || negb (truthy dbUser) then
               ret (error_response (VStr "User not found in database") 404%Z)
             else
               id <- get_prop dbUser "id" ;;
               name <- get_prop dbUser "name" ;;
               dbEmail <- get_prop dbUser "email" ;;
               firebase_uid <- get_prop dbUser "firebase_uid" ;;
               created_at <- get_prop dbUser "created_at" ;;
               idToken <- get_prop user "idToken" ;;
               refreshToken <- get_prop user "refreshToken" ;;
               expiresIn <- get_prop user "expiresIn" ;;
               ret (new_Response
                      (JSON_stringify
                         (VObj [("success", VBool true);
                                ("user",
                                 VObj [("id", id); ("name", name); ("email", dbEmail);
                                       ("firebase_uid", firebase_uid);
                                       ("created_at", created_at)]);
                                ("firebase_token", idToken);
                                ("refresh_token", refreshToken);
                                ("expires_in", expiresIn)]))
                      (Some 200%Z) jsonHeaders))
      (fun error =>
         m <- message_of error ;;
         ret (error_response
                (or_else m (VStr "Internal server error during login")) 500%Z)).

End InlineLogin.

(** ** Shapes of the sequences of outside calls *)

(** get-user on the pipeline: nothing, the account lookup alone, or the
    lookup followed by one select on the users table. *)
Definition get_user_calls (ext : list event) : Prop :=
  ext = []
  \/ (exists key token, ext = [lookup_call key token])
  \/ (exists key token id,
        ext = [lookup_call key token; ESelect "users" "id" (VStr id)]).

(** login on the pipeline: nothing, the sign-in alone, or the sign-in
    followed by one select on the users table. *)
Definition login_calls (ext : list event) : Prop :=
  ext = []
  \/ (exists key email password, ext = [signIn_call key email password])
  \/ (exists key email password uid,
        ext = [signIn_call key email password; ESelect "users" "firebase_uid" uid]).


Module More.

(** A store that finds nothing and accepts every insert, answering with the
    row it was given. *)
Definition empty_store : SupabaseClient :=
  {| select_eq_single := fun _ _ _ =>
       {| data := VNull; error := VObj [("message", VStr "no rows")] |};
     insert_select_single := fun _ row => {| data := row; error := VNull |} |}.

Definition world_on (store : SupabaseClient) (params : list (string * string))
    (e : list (string * string))
    (reply : string -> option string -> builtin FetchResponse) : World :=
  {| env := e;
     createClient := fun _ _ => Returns store;
     fetch_reply := reply;
     new_URL := fun _ => Returns {| searchParams := params |} |}.

(** A world in which no data-store client can be built. *)
Definition world_without_store (e : list (string * string))
    (reply : string -> option string -> builtin FetchResponse) : World :=
  {| env := e;
     createClient := fun _ _ => Raises "supabaseUrl is required.";
     fetch_reply := reply;
     new_URL := fun _ => Returns {| searchParams := [] |} |}.

Definition context_of (store : SupabaseClient) (params : list (string * string))
  : MiddlewareContext :=
  {| firebaseUser := VUndefined; supabaseClient := store;
     url := {| searchParams := params |} |}.

End More.

(** The names of the fields [sanitizeUserData] copies. *)
Definition sanitized_fields : list string :=
  ["id"; "name"; "email"; "firebase_uid"; "created_at"; "updated_at"].

(** * Properties *)

(** ** Running a computation step by step *)

Lemma bind_ok {A B : Type} (m : M A) (f : A -> M B) (t t' : list event) (a : A) :
  m t = (Ok a, t') -> bind m f t = f a t'.
Proof. unfold bind. intros ->. reflexivity. Qed.

Lemma bind_throw {A B : Type} (m : M A) (f : A -> M B) (t t' : list event) (e : thrown) :
  m t = (Throw e, t') -> bind m f t = (Throw e, t').
Proof. unfold bind. intros ->. reflexivity. Qed.

Lemma try_catch_ok {A : Type} (m : M A) (h : thrown -> M A) (t t' : list event) (a : A) :
  m t = (Ok a, t') -> try_catch m h t = (Ok a, t').
Proof. unfold try_catch. intros ->. reflexivity. Qed.

Lemma try_catch_throw {A : Type} (m : M A) (h : thrown -> M A) (t t' : list event)
    (e : thrown) :
  m t = (Throw e, t') -> try_catch m h t = h e t'.
Proof. unfold try_catch. intros ->. reflexivity. Qed.

Lemma get_prop_defined (v : value) (k : string) (t : list event) :
  nullish v = false -> get_prop v k t = (Ok (prop v k), t).
Proof. unfold get_prop. intros ->. reflexivity. Qed.

Lemma truthy_not_nullish (v : value) : truthy v = true -> nullish v = false.
Proof. destruct v; simpl; congruence. Qed.

Lemma prop_truthy_not_nullish (v : value) (k : string) :
  truthy (prop v k) = true -> nullish v = false.
Proof. destruct v; simpl; congruence. Qed.

(** ** Strings *)

Lemma prefix_app (p s : string) : String.prefix p (p ++ s) = true.
Proof.
  induction p as [|c p IH]; simpl.
  - destruct s; reflexivity.
  - destruct (ascii_dec c c); [apply IH | congruence].
Qed.

Lemma prefix_split (p s : string) : String.prefix p s = true -> exists r, s = p ++ r.
Proof.
  revert s. induction p as [|c p IH]; intros s H.
  - exists s. reflexivity.
  - destruct s as [|d s]; simpl in H; [discriminate|].
    destruct (ascii_dec c d) as [->|]; [|discriminate].
    destruct (IH _ H) as [r ->]. exists r. reflexivity.
Qed.

(** [includes] is the substring relation. *)
Lemma includes_iff (s needle : string) :
  includes s needle = true <-> exists a b, s = a ++ needle ++ b.
Proof.
  revert needle. induction s as [|c s IH]; intros needle; cbn [includes].
  - rewrite orb_false_r. split.
    + intros H. destruct (prefix_split _ _ H) as [r Hr]. exists EmptyString, r. exact Hr.
    + intros [a [b H]]. destruct a; simpl in H; [|discriminate].
      rewrite H. apply prefix_app.
  - split.
    + intros H. apply orb_true_iff in H. destruct H as [H|H].
      * destruct (prefix_split _ _ H) as [r Hr]. exists EmptyString, r. exact Hr.
      * apply IH in H. destruct H as [a [b ->]]. exists (String c a), b. reflexivity.
    + intros [a [b H]]. apply orb_true_iff. destruct a as [|d a]; simpl in H.
      * left. rewrite H. apply prefix_app.
      * right. injection H as _ ->. apply IH. exists a, b. reflexivity.
Qed.

(** The classification is case sensitive: the message of a failed token
    verification holds neither spelling of [not found], and no other
    classified substring. *)
Example no_user_found_is_unclassified :
  spec_status "Firebase token verification failed: Invalid token: No user found" = 500%Z
  /\ spec_status "User not found" = 404%Z
  /\ spec_status "Missing required query parameter: id" = 400%Z.
Proof. repeat split. Qed.

Example bearer_token_of_header :
  trim (replace "Bearer  abc.def " "Bearer " EmptyString) = "abc.def"
  /\ trim (replace "Bearer " "Bearer " EmptyString) = EmptyString
  /\ startsWith "bearer abc" "Bearer " = false.
Proof. repeat split. Qed.

Lemma shown_message_nonempty (message : string) :
  message <> EmptyString -> shown_message message = message.
Proof.
  unfold shown_message. intros H.
  destruct (String.eqb_spec message EmptyString); [contradiction | reflexivity].
Qed.

Lemma shown_message_of_match (message needle : string) :
  includes message needle = true -> needle <> EmptyString ->
  shown_message message = message.
Proof.
  intros H Hn. apply shown_message_nonempty. intros ->.
  destruct needle; [contradiction | discriminate].
Qed.

(** ** Responses *)

Lemma createErrorResponse_fields (message : string) (code : Z) :
  createErrorResponse (VStr message) (Some code) None =
    {| body := error_envelope message; status := code; headers := corsHeaders |}.
Proof. reflexivity. Qed.

(** ** The catch block on an [Error] *)

Lemma error_to_response_of_Error (message : string) (t : list event) :
  error_to_response (ErrorObject message) t =
    (Ok (createErrorResponse (VStr (shown_message message))
           (Some (spec_status message)) None), t).
Proof.
  unfold error_to_response, spec_status, bind, message_of, includes_method, ret.
  destruct (includes message "Unauthorized") eqn:E1;
    [ rewrite (shown_message_of_match _ _ E1) by discriminate; reflexivity |].
  destruct (includes message "Missing required") eqn:E2;
    [ rewrite (shown_message_of_match _ _ E2) by discriminate; reflexivity |].
  destruct (includes message "not found") eqn:E3; cbn [orb];
    [ rewrite (shown_message_of_match _ _ E3) by discriminate; reflexivity |].
  destruct (includes message "Not found") eqn:E4;
    [ rewrite (shown_message_of_match _ _ E4) by discriminate; reflexivity |].
  destruct (includes message "Forbidden") eqn:E5;
    [ rewrite (shown_message_of_match _ _ E5) by discriminate; reflexivity |].
  unfold or_else, truthy, shown_message.
  destruct (String.eqb message EmptyString); reflexivity.
Qed.

Lemma not_preflight (req : Request) :
  method req <> "OPTIONS" -> handleCorsPreflightRequest req = None.
Proof.
  unfold handleCorsPreflightRequest. intros H.
  destruct (String.eqb_spec (method req) "OPTIONS"); [contradiction | reflexivity].
Qed.

(** ** CORS preflight *)

(** C4: a request whose method is OPTIONS is answered with status 200, the
    body [ok] and the CORS headers, whatever the options, the environment,
    the providers and the handler are; no outside call is issued, so none of
    config validation, context construction, authentication or the handler
    has run before the answer. *)
Theorem preflight_answers_ok (w : World) (req : Request) (handler : Handler)
    (options : Options) (t : list event) :
  method req = "OPTIONS" ->
  withMiddleware w req handler options t =
    (Ok {| body := "ok"; status := 200; headers := corsHeaders |}, t).
Proof.
  intros H.
  unfold withMiddleware, pipeline, handleCorsPreflightRequest.
  rewrite H. reflexivity.
Qed.

Lemma preflight_answers_ok_witness :
  withMiddleware (Scenario.world [] (Scenario.replies false VNull))
    (Scenario.request "OPTIONS" None Scenario.no_body)
    (Scenario.fails (Thrown VNull)) Scenario.guarded [] =
    (Ok {| body := "ok"; status := 200; headers := corsHeaders |}, []).
Proof. apply preflight_answers_ok. reflexivity. Defined.

(** ** The error taxonomy at the pipeline boundary *)

(** C2, as stated, fails on an [Error] with an empty message: the body shows
    the fixed text, not the envelope of the (empty) message. *)
Lemma empty_message_is_replaced :
  withMiddleware (Scenario.world Scenario.full_env (Scenario.replies false VNull))
    (Scenario.request "GET" None Scenario.no_body)
    (Scenario.fails (ErrorObject EmptyString)) Scenario.plain [] =
    (Ok {| body := error_envelope "Internal server error";
           status := 500; headers := corsHeaders |}, [])
  /\ error_envelope "Internal server error" <> error_envelope EmptyString.
Proof. split; [reflexivity | discriminate]. Qed.

Lemma error_to_response_of_message (e : thrown) (message : string) (t : list event) :
  message_of e t = (Ok (VStr message), t) ->
  error_to_response e t =
    (Ok (createErrorResponse (VStr (shown_message message))
           (Some (spec_status message)) None), t).
Proof.
  intros H. rewrite <- error_to_response_of_Error.
  unfold error_to_response, bind. rewrite H. reflexivity.
Qed.

(** C2 (amended): a failure of the try block whose [message] is the string
    [message] (an [Error], or any thrown object with such a property) is
    answered with the status the substring classification gives --
    Unauthorized 401, else Missing required 400, else not found or Not found
    404, else Forbidden 403, else 500 -- and with the envelope of the message
    as body, the fixed text [Internal server error] standing in for an empty
    message. *)
Theorem caught_error_is_classified (w : World) (req : Request) (handler : Handler)
    (options : Options) (t t' : list event) (e : thrown) (message : string) :
  pipeline w req handler options t = (Throw e, t') ->
  message_of e t' = (Ok (VStr message), t') ->
  withMiddleware w req handler options t =
    (Ok {| body := error_envelope (shown_message message);
           status := spec_status message;
           headers := corsHeaders |}, t')
  /\ (message <> EmptyString -> shown_message message = message)
  /\ shown_message EmptyString = "Internal server error".
Proof.
  intros H Hmsg. split; [| split; [apply shown_message_nonempty | reflexivity]].
  unfold withMiddleware.
  rewrite (try_catch_throw _ _ _ _ _ H).
  rewrite (error_to_response_of_message _ _ _ Hmsg).
  rewrite createErrorResponse_fields. reflexivity.
Qed.

Lemma caught_error_is_classified_witness :
  withMiddleware (Scenario.world Scenario.full_env (Scenario.replies false VNull))
    (Scenario.request "GET" None Scenario.no_body)
    (Scenario.fails (ErrorObject "Profile Not found")) Scenario.plain [] =
    (Ok {| body := error_envelope "Profile Not found";
           status := 404; headers := corsHeaders |}, []).
Proof.
  exact (proj1 (caught_error_is_classified
                  (Scenario.world Scenario.full_env (Scenario.replies false VNull))
                  (Scenario.request "GET" None Scenario.no_body)
                  (Scenario.fails (ErrorObject "Profile Not found")) Scenario.plain
                  [] [] (ErrorObject "Profile Not found") "Profile Not found"
                  eq_refl eq_refl)).
Defined.

(** ** Failures that escape *)

Lemma teo_ret {A : Type} (a : A) : throws_errors_only (ret a).
Proof. intros t v t'. discriminate. Qed.

Lemma teo_throw {A : Type} (message : string) :
  throws_errors_only (@throw A (ErrorObject message)).
Proof. intros t v t'. discriminate. Qed.

Lemma teo_lift {A : Type} (b : builtin A) : throws_errors_only (lift b).
Proof. destruct b; [apply teo_ret | apply teo_throw]. Qed.

Lemma teo_emit (e : event) : throws_errors_only (emit e).
Proof. intros t v t'. discriminate. Qed.

Lemma teo_bind {A B : Type} (m : M A) (f : A -> M B) :
  throws_errors_only m -> (forall a, throws_errors_only (f a)) ->
  throws_errors_only (bind m f).
Proof.
  intros Hm Hf t v t'. unfold bind.
  destruct (m t) as [[a | e] t0] eqn:E.
  - apply Hf.
  - intros H. injection H as -> ->. exact (Hm _ _ _ E).
Qed.

Lemma teo_try_catch {A : Type} (m : M A) (h : thrown -> M A) :
  (forall e, throws_errors_only (h e)) -> throws_errors_only (try_catch m h).
Proof.
  intros Hh t v t'. unfold try_catch.
  destruct (m t) as [[a | e] t0]; [discriminate | apply Hh].
Qed.

Lemma teo_get_prop (v : value) (k : string) : throws_errors_only (get_prop v k).
Proof. unfold get_prop. destruct (nullish v); [apply teo_throw | apply teo_ret]. Qed.

Lemma teo_opt_get (v : value) (k : string) : throws_errors_only (opt_get v k).
Proof. unfold opt_get. destruct (nullish v); apply teo_ret. Qed.

Lemma teo_message_of (e : thrown) : throws_errors_only (message_of e).
Proof. destruct e; [apply teo_ret | apply teo_get_prop]. Qed.

Ltac teo :=
  repeat first
    [ apply teo_ret | apply teo_throw | apply teo_lift | apply teo_emit
    | apply teo_get_prop | apply teo_opt_get | apply teo_message_of
    | apply teo_try_catch; intros
    | apply teo_bind; [| intros]
    | match goal with
      | |- throws_errors_only (if ?c then _ else _) => destruct c
      | |- throws_errors_only (match ?x with _ => _ end) => destruct x
      end ].

Lemma teo_fetch (w : World) (u : string) (b : option string) :
  throws_errors_only (fetch w u b).
Proof. unfold fetch. teo. Qed.

Lemma teo_verifyFirebaseToken (w : World) (token : string) :
  throws_errors_only (verifyFirebaseToken w token).
Proof. unfold verifyFirebaseToken, new_Error. teo; apply teo_fetch. Qed.

Lemma teo_extractAndVerifyToken (w : World) (req : Request) :
  throws_errors_only (extractAndVerifyToken w req).
Proof. unfold extractAndVerifyToken. teo. apply teo_verifyFirebaseToken. Qed.

Lemma teo_pipeline (w : World) (req : Request) (handler : Handler) (options : Options) :
  (forall req' context, throws_errors_only (handler req' context)) ->
  throws_errors_only (pipeline w req handler options).
Proof.
  intros Hh. unfold pipeline, validate_env, create_context, createSupabaseClient, authenticate.
  teo; try apply teo_extractAndVerifyToken; apply Hh.
Qed.

(** What the pipeline does guarantee: with a handler that fails with [Error]
    instances only, every invocation settles with a response. *)
Lemma withMiddleware_responds (w : World) (req : Request) (handler : Handler)
    (options : Options) (t : list event) :
  (forall req' context, throws_errors_only (handler req' context)) ->
  exists resp t', withMiddleware w req handler options t = (Ok resp, t').
Proof.
  intros Hh. unfold withMiddleware, try_catch.
  destruct (pipeline w req handler options t) as [[resp | [message | v]] t'] eqn:E.
  - exists resp, t'. reflexivity.
  - rewrite error_to_response_of_Error. eauto.
  - exfalso. exact (teo_pipeline w req handler options Hh _ _ _ E).
Qed.

Lemma teo_missing_fields (data : value) (fields : list string) :
  throws_errors_only (missing_fields data fields).
Proof. induction fields as [| field rest IH]; cbn [missing_fields]; teo. exact IH. Qed.

(** The two endpoints of the repository that run on the pipeline always
    answer. *)
Lemma get_user_responds (w : World) (req : Request) (t : list event) :
  exists resp t', get_user w req t = (Ok resp, t').
Proof.
  apply withMiddleware_responds. intros req' context.
  unfold get_user_handler, getRequiredQueryParam, select_single.
  teo.
Qed.

Lemma login_responds (w : World) (req : Request) (t : list event) :
  exists resp t', login w req t = (Ok resp, t').
Proof.
  apply withMiddleware_responds. intros req' context.
  unfold login_handler, validateRequiredFields, authenticateWithFirebase, new_Error,
    select_single.
  teo; first [ apply teo_missing_fields | apply teo_fetch ].
Qed.


(** C3: a handler that throws a value with no [message] (here a string)
    makes the catch block itself fail on [error.message.includes]: the
    pipeline settles with a TypeError and no response. *)
Theorem messageless_throw_escapes :
  withMiddleware (Scenario.world Scenario.full_env (Scenario.replies false VNull))
    (Scenario.request "GET" None Scenario.no_body)
    (Scenario.fails (Thrown (VStr "boom"))) Scenario.plain [] =
    (Throw (ErrorObject "Cannot read properties of undefined (reading 'includes')"), []).
Proof. reflexivity. Qed.

(** ** Config validation *)

(** C6, as stated, fails on a preflight request: with validation asked for
    and every variable missing it is still answered 200. *)
Lemma preflight_skips_validation :
  withMiddleware (Scenario.world [] (Scenario.replies false VNull))
    (Scenario.request "OPTIONS" None Scenario.no_body)
    (Scenario.answers (new_Response None None [])) Scenario.guarded [] =
    (Ok {| body := "ok"; status := 200; headers := corsHeaders |}, [])
  /\ validateEnv Scenario.guarded = true
  /\ missingEnvVars (Scenario.world [] (Scenario.replies false VNull)) = requiredEnvVars.
Proof. repeat split. Qed.

Lemma missing_env_vars_listed (w : World) (req : Request) (handler : Handler)
    (options : Options) (t : list event) :
  method req <> "OPTIONS" ->
  validateEnv options = true ->
  missingEnvVars w <> [] ->
  withMiddleware w req handler options t =
    (Ok {| body := error_envelope
                     ("Missing environment variables: " ++ join ", " (missingEnvVars w));
           status := 500; headers := corsHeaders |}, t).
Proof.
  intros Hm Hv Hne.
  unfold withMiddleware, pipeline. rewrite (not_preflight _ Hm).
  unfold validate_env. rewrite Hv.
  revert Hne. unfold missingEnvVars, requiredEnvVars. cbn [filter].
  destruct (absent (Deno_env_get w "SUPABASE_URL"));
    destruct (absent (Deno_env_get w "SUPABASE_SERVICE_ROLE_KEY"));
    destruct (absent (Deno_env_get w "FIREBASE_WEB_API_KEY"));
    intros Hne; try (exfalso; apply Hne; reflexivity); reflexivity.
Qed.

(** C6 (amended): on a request that is not a preflight, with validation
    asked for and at least one of the three variables missing, the answer has
    status 500 and the message [Missing environment variables: ] followed by
    the names of all the missing variables, joined by a comma and a space;
    the handler does not run and no outside call is issued. *)
Theorem missing_env_vars_all_listed (w : World) (req : Request) (handler : Handler)
    (options : Options) (t : list event) :
  method req <> "OPTIONS" ->
  validateEnv options = true ->
  missingEnvVars w <> [] ->
  withMiddleware w req handler options t =
    (Ok {| body := error_envelope
                     ("Missing environment variables: " ++ join ", " (missingEnvVars w));
           status := 500; headers := corsHeaders |}, t)
  /\ (forall k, In k (missingEnvVars w) <->
                In k requiredEnvVars /\ absent (Deno_env_get w k) = true).
Proof.
  intros Hm Hv Hne. split; [| intros k; apply filter_In].
  apply missing_env_vars_listed; assumption.
Qed.

Lemma missing_env_vars_all_listed_witness :
  withMiddleware
    (Scenario.world [("SUPABASE_SERVICE_ROLE_KEY", "service")] (Scenario.replies false VNull))
    (Scenario.request "GET" None Scenario.no_body)
    (Scenario.answers (new_Response None None [])) Scenario.guarded [] =
    (Ok {| body := error_envelope
                     "Missing environment variables: SUPABASE_URL, FIREBASE_WEB_API_KEY";
           status := 500; headers := corsHeaders |}, []).
Proof.
  refine (proj1 (missing_env_vars_all_listed
                   (Scenario.world [("SUPABASE_SERVICE_ROLE_KEY", "service")]
                      (Scenario.replies false VNull))
                   (Scenario.request "GET" None Scenario.no_body)
                   (Scenario.answers (new_Response None None [])) Scenario.guarded []
                   _ _ _)).
  - discriminate.
  - reflexivity.
  - discriminate.
Defined.

(** ** Context construction *)

(** C10, as stated, fails when validation is asked for: the validation step
    fails first, with its own message. *)
Lemma validation_preempts_context_error :
  withMiddleware (Scenario.world Scenario.env_without_url (Scenario.replies false VNull))
    (Scenario.request "GET" None Scenario.no_body)
    (Scenario.answers (new_Response None None [])) Scenario.validated [] =
    (Ok {| body := error_envelope "Missing environment variables: SUPABASE_URL";
           status := 500; headers := corsHeaders |}, [])
  /\ error_envelope "Missing environment variables: SUPABASE_URL" <>
     error_envelope
       "Missing Supabase configuration: SUPABASE_URL and SUPABASE_SERVICE_ROLE_KEY are required".
Proof. split; [reflexivity | discriminate]. Qed.

(** C10 (amended): on a request that is not a preflight, when the store
    endpoint or the store service credential is missing, the answer has
    status 500 whatever the options are, the handler does not run and no
    outside call is issued. Without validation the failure is that of
    context construction, with the message [Missing Supabase configuration:
    SUPABASE_URL and SUPABASE_SERVICE_ROLE_KEY are required]; with validation
    it is that of the validation step, with the list of missing variables. *)
Theorem store_config_always_required (w : World) (req : Request) (handler : Handler)
    (options : Options) (t : list event) :
  method req <> "OPTIONS" ->
  absent (Deno_env_get w "SUPABASE_URL")
  || absent (Deno_env_get w "SUPABASE_SERVICE_ROLE_KEY") = true ->
  withMiddleware w req handler options t =
    (Ok {| body := error_envelope
                     (if validateEnv options
                      then "Missing environment variables: "
                           ++ join ", " (missingEnvVars w)
                      else "Missing Supabase configuration: SUPABASE_URL and SUPABASE_SERVICE_ROLE_KEY are required");
           status := 500; headers := corsHeaders |}, t).
Proof.
  intros Hm Habs.
  destruct (validateEnv options) eqn:Hv.
  - apply missing_env_vars_listed; try assumption.
    unfold missingEnvVars, requiredEnvVars. cbn [filter].
    destruct (absent (Deno_env_get w "SUPABASE_URL")); [discriminate|].
    destruct (absent (Deno_env_get w "SUPABASE_SERVICE_ROLE_KEY")); [discriminate|].
    discriminate.
  - unfold withMiddleware, pipeline. rewrite (not_preflight _ Hm).
    unfold validate_env. rewrite Hv.
    unfold create_context, createSupabaseClient. rewrite Habs. reflexivity.
Qed.

Lemma store_config_always_required_witness :
  withMiddleware (Scenario.world [("SUPABASE_URL", "https://db.example.org")]
                    (Scenario.replies false VNull))
    (Scenario.request "POST" None (Returns Scenario.credentials))
    (Scenario.answers (new_Response None None [])) Scenario.plain [] =
    (Ok {| body := error_envelope
                     "Missing Supabase configuration: SUPABASE_URL and SUPABASE_SERVICE_ROLE_KEY are required";
           status := 500; headers := corsHeaders |}, []).
Proof.
  refine (store_config_always_required
            (Scenario.world [("SUPABASE_URL", "https://db.example.org")]
               (Scenario.replies false VNull))
            (Scenario.request "POST" None (Returns Scenario.credentials))
            (Scenario.answers (new_Response None None [])) Scenario.plain [] _ _).
  - discriminate.
  - reflexivity.
Defined.

(** ** Extraction of the bearer token *)

Lemma replace_prefix (s pat rep : string) :
  String.prefix pat s = true -> replace s pat rep = rep ++ drop (String.length pat) s.
Proof. intros H. destruct s; cbn [replace]; rewrite H; reflexivity. Qed.

(** Past the preflight test, validation and context construction, the
    pipeline is authentication followed by the handler. *)
Lemma withMiddleware_past_context (w : World) (req : Request) (handler : Handler)
    (options : Options) (t : list event) (context : MiddlewareContext) :
  method req <> "OPTIONS" ->
  validate_env w options t = (Ok tt, t) ->
  create_context w req t = (Ok context, t) ->
  withMiddleware w req handler options t =
    try_catch (context' <- authenticate w req options context ;; handler req context')
      error_to_response t.
Proof.
  intros Hm Hv Hc.
  unfold withMiddleware, pipeline. rewrite (not_preflight _ Hm).
  unfold try_catch.
  rewrite (bind_ok _ _ _ _ _ Hv), (bind_ok _ _ _ _ _ Hc). reflexivity.
Qed.

Lemma authentication_failure (w : World) (req : Request) (handler : Handler)
    (options : Options) (t t' : list event) (context : MiddlewareContext)
    (message : string) :
  requireAuth options = true ->
  extractAndVerifyToken w req t = (Throw (ErrorObject message), t') ->
  try_catch (context' <- authenticate w req options context ;; handler req context')
    error_to_response t =
    (Ok {| body := error_envelope (shown_message message);
           status := spec_status message; headers := corsHeaders |}, t').
Proof.
  intros Ha He.
  assert (Hauth : authenticate w req options context t = (Throw (ErrorObject message), t')).
  { unfold authenticate. rewrite Ha. apply bind_throw. exact He. }
  rewrite (try_catch_throw _ _ t t' (ErrorObject message)).
  - rewrite error_to_response_of_Error. apply f_equal2; reflexivity.
  - apply bind_throw. exact Hauth.
Qed.

Lemma extractAndVerifyToken_delegates (w : World) (req : Request) (t : list event)
    (header : string) :
  authorization req = Some header ->
  startsWith header "Bearer " = true ->
  trim (drop 7 header) <> EmptyString ->
  extractAndVerifyToken w req t = verifyFirebaseToken w (trim (drop 7 header)) t.
Proof.
  intros Hh Hs Hne.
  unfold extractAndVerifyToken. rewrite Hh. cbn [str_of absent]. rewrite Hs.
  rewrite (replace_prefix header "Bearer " EmptyString Hs).
  cbn [String.length append negb orb].
  destruct header; [discriminate |]. cbn [String.eqb orb].
  destruct (String.eqb_spec (trim (drop 7 (String a header))) EmptyString);
    [contradiction | reflexivity].
Qed.

(** C5, as stated, fails on two kinds of invocation that ask for
    authentication and carry no Authorization header: a preflight request is
    answered 200, and a request whose context cannot be built (here the store
    configuration is missing) is answered 500 before authentication starts. *)
Lemma missing_header_not_always_401 :
  withMiddleware (Scenario.world Scenario.full_env (Scenario.replies false VNull))
    (Scenario.request "OPTIONS" None Scenario.no_body)
    (Scenario.answers (new_Response None None [])) Scenario.guarded [] =
    (Ok {| body := "ok"; status := 200; headers := corsHeaders |}, [])
  /\ withMiddleware (Scenario.world [] (Scenario.replies false VNull))
       (Scenario.request "GET" None Scenario.no_body)
       (Scenario.answers (new_Response None None [])) Scenario.authenticated [] =
     (Ok {| body := error_envelope
                      "Missing Supabase configuration: SUPABASE_URL and SUPABASE_SERVICE_ROLE_KEY are required";
            status := 500; headers := corsHeaders |}, []).
Proof. split; reflexivity. Qed.

(** C5 (amended): on an invocation that asks for authentication, is not a
    preflight and gets past config validation and context construction: when
    the Authorization header is absent or does not start with [Bearer ], the
    answer has status 401 and the message [Unauthorized: No valid Bearer
    token provided]; when the header starts with the prefix and nothing but
    white space follows it, the answer has status 401 and the message
    [Unauthorized: Empty token provided]; otherwise the extraction is the
    verification of the token, which is the rest of the header without its
    surrounding white space. *)
Theorem bearer_token_extraction (w : World) (req : Request) (handler : Handler)
    (options : Options) (t : list event) (context : MiddlewareContext) :
  method req <> "OPTIONS" ->
  requireAuth options = true ->
  validate_env w options t = (Ok tt, t) ->
  create_context w req t = (Ok context, t) ->
  (absent (authorization req)
   || negb (startsWith (str_of (authorization req)) "Bearer ") = true ->
   withMiddleware w req handler options t =
     (Ok {| body := error_envelope "Unauthorized: No valid Bearer token provided";
            status := 401; headers := corsHeaders |}, t))
  /\ (forall header,
        authorization req = Some header ->
        startsWith header "Bearer " = true ->
        (trim (drop 7 header) = EmptyString ->
         withMiddleware w req handler options t =
           (Ok {| body := error_envelope "Unauthorized: Empty token provided";
                  status := 401; headers := corsHeaders |}, t))
        /\ (trim (drop 7 header) <> EmptyString ->
            extractAndVerifyToken w req t =
              verifyFirebaseToken w (trim (drop 7 header)) t)).
Proof.
  intros Hm Ha Hv Hc. split.
  - intros Hbad.
    rewrite (withMiddleware_past_context _ _ _ _ _ _ Hm Hv Hc).
    apply (authentication_failure w req handler options t t context
             "Unauthorized: No valid Bearer token provided" Ha).
    unfold extractAndVerifyToken. rewrite Hbad. reflexivity.
  - intros header Hh Hs.
    assert (Hgood : absent (authorization req)
                    || negb (startsWith (str_of (authorization req)) "Bearer ") = false).
    { rewrite Hh. cbn [str_of absent]. rewrite Hs.
      destruct header; [discriminate | reflexivity]. }
    assert (Htok : replace (str_of (authorization req)) "Bearer " EmptyString
                   = drop 7 header).
    { rewrite Hh. cbn [str_of]. apply (replace_prefix header "Bearer " EmptyString Hs). }
    split.
    + intros He.
      rewrite (withMiddleware_past_context _ _ _ _ _ _ Hm Hv Hc).
      apply (authentication_failure w req handler options t t context
               "Unauthorized: Empty token provided" Ha).
      unfold extractAndVerifyToken. rewrite Hgood, Htok, He. reflexivity.
    + intros Hne. apply extractAndVerifyToken_delegates; assumption.
Qed.

Lemma bearer_token_extraction_witness :
  withMiddleware (Scenario.world Scenario.full_env (Scenario.replies false VNull))
    (Scenario.request "GET" (Some "Basic dXNlcjpwdw==") Scenario.no_body)
    (Scenario.answers (new_Response None None [])) Scenario.guarded [] =
    (Ok {| body := error_envelope "Unauthorized: No valid Bearer token provided";
           status := 401; headers := corsHeaders |}, []).
Proof.
  refine (proj1 (bearer_token_extraction
                   (Scenario.world Scenario.full_env (Scenario.replies false VNull))
                   (Scenario.request "GET" (Some "Basic dXNlcjpwdw==") Scenario.no_body)
                   (Scenario.answers (new_Response None None [])) Scenario.guarded []
                   {| firebaseUser := VUndefined; supabaseClient := Scenario.store;
                      url := {| searchParams := [("id", "7")] |} |}
                   _ _ _ _) _).
  - discriminate.
  - reflexivity.
  - reflexivity.
  - reflexivity.
  - reflexivity.
Defined.

(** ** Verification of a bearer token *)

Lemma opt_get_prop (v : value) (k : string) (t : list event) :
  opt_get v k t = (Ok (prop v k), t).
Proof. unfold opt_get. destruct v; reflexivity. Qed.

Lemma prop_defined_not_nullish (v : value) (k : string) :
  prop v k <> VUndefined -> nullish v = false.
Proof. destruct v; simpl; congruence. Qed.

Lemma present_not_absent (key : string) :
  key <> EmptyString -> absent (Some key) = false.
Proof.
  intros H. simpl.
  destruct (String.eqb_spec key EmptyString); [contradiction | reflexivity].
Qed.

Section TokenVerification.

Variables (w : World) (token key : string) (response : FetchResponse) (t : list event).

Hypothesis Hkey : Deno_env_get w "FIREBASE_WEB_API_KEY" = Some key.
Hypothesis Hkey_set : key <> EmptyString.
Hypothesis Hreply :
  fetch_reply w (lookup_url key) (JSON_stringify (VObj [("idToken", VStr token)]))
  = Returns response.

Lemma verify_after_fetch :
  verifyFirebaseToken w token t =
    try_catch
      (if negb (ok response) then
         errorData <- lift (res_json response) ;;
         e <- get_prop errorData "error" ;;
         m <- opt_get e "message" ;;
         throw (new_Error (or_else m (VStr "Invalid or expired token")))
       else
         data <- lift (res_json response) ;;
         users <- get_prop data "users" ;;
         if negb (truthy users) || strict_eq (length_of users) (VNum 0) then
           throw (ErrorObject "Invalid token: No user found")
         else ret (first_of users))
      (fun error =>
         m <- message_of error ;;
         throw (ErrorObject ("Firebase token verification failed: " ++ to_string m)))
      (t ++ [lookup_call key token])%list.
Proof.
  unfold verifyFirebaseToken. rewrite Hkey, (present_not_absent _ Hkey_set).
  cbn [str_of]. unfold try_catch, fetch, bind at 1 2, emit, lookup_call.
  rewrite Hreply. reflexivity.
Qed.

Lemma verify_zero_accounts (data : value) :
  ok response = true ->
  res_json response = Returns data ->
  prop data "users" = VArr [] ->
  verifyFirebaseToken w token t =
    (Throw (ErrorObject "Firebase token verification failed: Invalid token: No user found"),
     (t ++ [lookup_call key token])%list).
Proof.
  intros Hok Hjson Husers. rewrite verify_after_fetch.
  rewrite Hok. cbn [negb]. rewrite Hjson.
  unfold try_catch, bind, lift, ret.
  rewrite get_prop_defined
    by (apply (prop_defined_not_nullish _ "users"); rewrite Husers; discriminate).
  rewrite Husers. reflexivity.
Qed.

Lemma verify_first_account (data first : value) (rest : list value) :
  ok response = true ->
  res_json response = Returns data ->
  prop data "users" = VArr (first :: rest) ->
  verifyFirebaseToken w token t = (Ok first, (t ++ [lookup_call key token])%list).
Proof.
  intros Hok Hjson Husers. rewrite verify_after_fetch.
  rewrite Hok. cbn [negb]. rewrite Hjson.
  unfold try_catch, bind, lift, ret.
  rewrite get_prop_defined
    by (apply (prop_defined_not_nullish _ "users"); rewrite Husers; discriminate).
  rewrite Husers. cbn [truthy negb orb length_of List.length strict_eq first_of].
  destruct (Z.eqb_spec (Z.of_nat (S (List.length rest))) 0); [lia | reflexivity].
Qed.

Lemma verify_rejected :
  ok response = false ->
  exists cause,
    verifyFirebaseToken w token t =
      (Throw (ErrorObject ("Firebase token verification failed: " ++ cause)),
       (t ++ [lookup_call key token])%list)
    /\ (forall errorData,
          res_json response = Returns errorData -> nullish errorData = false ->
          cause = error_message
                    (or_else (prop (prop errorData "error") "message")
                       (VStr "Invalid or expired token"))).
Proof.
  intros Hok. rewrite verify_after_fetch. rewrite Hok. cbn [negb].
  destruct (res_json response) as [errorData | m] eqn:Hjson.
  - destruct (nullish errorData) eqn:Hn.
    + eexists. split.
      * unfold try_catch, bind, lift, ret, get_prop. rewrite Hn.
        unfold throw, type_error_read, message_of. cbn [to_string]. reflexivity.
      * intros errorData' Heq Hn'. injection Heq as <-. congruence.
    + eexists. split.
      * unfold try_catch, bind, lift, ret.
        rewrite (get_prop_defined _ _ _ Hn), opt_get_prop.
        unfold throw, new_Error, message_of. cbn [to_string]. reflexivity.
      * intros errorData' Heq _. injection Heq as <-. reflexivity.
  - eexists. split.
    + reflexivity.
    + intros errorData Heq. discriminate.
Qed.

End TokenVerification.

Lemma authentication_success (w : World) (req : Request) (handler : Handler)
    (options : Options) (t t' : list event) (context : MiddlewareContext)
    (user : value) :
  requireAuth options = true ->
  extractAndVerifyToken w req t = (Ok user, t') ->
  try_catch (context' <- authenticate w req options context ;; handler req context')
    error_to_response t =
    try_catch
      (handler req {| firebaseUser := user;
                      supabaseClient := supabaseClient context;
                      url := url context |})
      error_to_response t'.
Proof.
  intros Ha He.
  unfold authenticate. rewrite Ha.
  unfold try_catch, bind. rewrite He. reflexivity.
Qed.

(** C1, as stated, fails when the lookup returns zero accounts: the
    verification fails with a longer message, which names the step that
    failed, and the pipeline answers 500. *)
Lemma zero_accounts_answer_500 :
  verifyFirebaseToken
    (Scenario.world Scenario.full_env (Scenario.replies true Scenario.no_accounts))
    "tok" [] =
    (Throw (ErrorObject "Firebase token verification failed: Invalid token: No user found"),
     [lookup_call "webkey" "tok"])
  /\ withMiddleware
       (Scenario.world Scenario.full_env (Scenario.replies true Scenario.no_accounts))
       (Scenario.request "GET" (Some "Bearer tok") Scenario.no_body)
       (Scenario.answers (new_Response None None [])) Scenario.guarded [] =
     (Ok {| body := error_envelope
                      "Firebase token verification failed: Invalid token: No user found";
            status := 500; headers := corsHeaders |},
      [lookup_call "webkey" "tok"]).
Proof. split; reflexivity. Qed.

(** C1 (amended): for a bearer token that reaches the verification (the
    request is not a preflight, asks for authentication, gets past config
    validation and context construction, and the provider key is set): when
    the lookup returns zero accounts the verification fails with the message
    [Firebase token verification failed: Invalid token: No user found]; when
    the lookup is non-2xx it fails with [Firebase token verification failed: ]
    followed by the provider's error message, or by [Invalid or expired
    token] when the reply carries none; in both cases the pipeline answers
    with the error envelope of that message. On success the verification
    returns the first account of the returned list, and the handler runs with
    it as [context.firebaseUser]. *)
Theorem token_verification_outcomes (w : World) (req : Request) (handler : Handler)
    (options : Options) (t : list event) (context : MiddlewareContext)
    (header key : string) (response : FetchResponse) :
  method req <> "OPTIONS" ->
  requireAuth options = true ->
  validate_env w options t = (Ok tt, t) ->
  create_context w req t = (Ok context, t) ->
  authorization req = Some header ->
  startsWith header "Bearer " = true ->
  trim (drop 7 header) <> EmptyString ->
  Deno_env_get w "FIREBASE_WEB_API_KEY" = Some key ->
  key <> EmptyString ->
  fetch_reply w (lookup_url key)
    (JSON_stringify (VObj [("idToken", VStr (trim (drop 7 header)))])) = Returns response ->
  (forall data,
     ok response = true -> res_json response = Returns data ->
     prop data "users" = VArr [] ->
     verifyFirebaseToken w (trim (drop 7 header)) t =
       (Throw (ErrorObject
                 "Firebase token verification failed: Invalid token: No user found"),
        (t ++ [lookup_call key (trim (drop 7 header))])%list)
     /\ exists code,
         withMiddleware w req handler options t =
           (Ok {| body := error_envelope
                            "Firebase token verification failed: Invalid token: No user found";
                  status := code; headers := corsHeaders |},
            (t ++ [lookup_call key (trim (drop 7 header))])%list))
  /\ (ok response = false ->
      exists cause,
        verifyFirebaseToken w (trim (drop 7 header)) t =
          (Throw (ErrorObject ("Firebase token verification failed: " ++ cause)),
           (t ++ [lookup_call key (trim (drop 7 header))])%list)
        /\ (forall errorData,
              res_json response = Returns errorData -> nullish errorData = false ->
              cause = error_message
                        (or_else (prop (prop errorData "error") "message")
                           (VStr "Invalid or expired token")))
        /\ exists code,
            withMiddleware w req handler options t =
              (Ok {| body := error_envelope
                               ("Firebase token verification failed: " ++ cause);
                     status := code; headers := corsHeaders |},
               (t ++ [lookup_call key (trim (drop 7 header))])%list))
  /\ (forall data first rest,
        ok response = true -> res_json response = Returns data ->
        prop data "users" = VArr (first :: rest) ->
        verifyFirebaseToken w (trim (drop 7 header)) t =
          (Ok first, (t ++ [lookup_call key (trim (drop 7 header))])%list)
        /\ withMiddleware w req handler options t =
             try_catch
               (handler req {| firebaseUser := first;
                               supabaseClient := supabaseClient context;
                               url := url context |})
               error_to_response
               (t ++ [lookup_call key (trim (drop 7 header))])%list).
Proof.
  intros Hm Ha Hv Hc Hh Hs Htok Hkey Hkey_set Hreply.
  pose proof (extractAndVerifyToken_delegates w req t header Hh Hs Htok) as Hdel.
  pose proof (withMiddleware_past_context w req handler options t context Hm Hv Hc)
    as Hpast.
  split; [| split].
  - intros data Hok Hjson Husers.
    pose proof (verify_zero_accounts w _ key response t Hkey Hkey_set Hreply
                  data Hok Hjson Husers) as Hver.
    split; [exact Hver |].
    eexists. rewrite Hpast.
    rewrite (authentication_failure w req handler options t _ context _ Ha
               (eq_trans Hdel Hver)).
    reflexivity.
  - intros Hok.
    destruct (verify_rejected w _ key response t Hkey Hkey_set Hreply Hok)
      as [cause [Hver Hcause]].
    exists cause. split; [exact Hver | split; [exact Hcause |]].
    eexists. rewrite Hpast.
    rewrite (authentication_failure w req handler options t _ context _ Ha
               (eq_trans Hdel Hver)).
    rewrite shown_message_nonempty by discriminate. reflexivity.
  - intros data first rest Hok Hjson Husers.
    pose proof (verify_first_account w _ key response t Hkey Hkey_set Hreply
                  data first rest Hok Hjson Husers) as Hver.
    split; [exact Hver |].
    rewrite Hpast.
    apply (authentication_success w req handler options t _ context first Ha).
    rewrite Hdel. exact Hver.
Qed.

Lemma token_verification_outcomes_witness :
  verifyFirebaseToken
    (Scenario.world Scenario.full_env
       (Scenario.replies true (Scenario.one_account "uid-ann")))
    "tok" [] =
    (Ok (Scenario.account "uid-ann"), [lookup_call "webkey" "tok"]).
Proof.
  refine (proj1 (proj2 (proj2
            (token_verification_outcomes
               (Scenario.world Scenario.full_env
                  (Scenario.replies true (Scenario.one_account "uid-ann")))
               (Scenario.request "GET" (Some "Bearer tok") Scenario.no_body)
               (Scenario.answers (new_Response None None [])) Scenario.guarded []
               {| firebaseUser := VUndefined; supabaseClient := Scenario.store;
                  url := {| searchParams := [("id", "7")] |} |}
               "Bearer tok" "webkey"
               {| ok := true; res_json := Returns (Scenario.one_account "uid-ann") |}
               _ _ _ _ _ _ _ _ _ _))
            (Scenario.one_account "uid-ann") (Scenario.account "uid-ann") []
            _ _ _)).
  all: try reflexivity; discriminate.
Defined.

(** ** get-user *)

Lemma sanitizeUserData_defined (user : value) (t : list event) :
  nullish user = false -> sanitizeUserData user t = (Ok (sanitized_user user), t).
Proof.
  intros H. unfold sanitizeUserData, bind.
  repeat rewrite (get_prop_defined _ _ _ H). reflexivity.
Qed.

(** The handler, once the requested record is found. *)
Lemma get_user_handler_found (req : Request) (context : MiddlewareContext)
    (t : list event) (id : string) (r : DbResult) :
  lookup "id" (searchParams (url context)) = Some id ->
  id <> EmptyString ->
  select_eq_single (supabaseClient context) "users" "id" (VStr id) = r ->
  truthy (error r) = false ->
  truthy (data r) = true ->
  get_user_handler req context t =
    if negb (strict_eq (prop (data r) "firebase_uid")
               (prop (firebaseUser context) "localId"))
    then (Throw (ErrorObject "Forbidden: You can only access your own user data"),
          (t ++ [ESelect "users" "id" (VStr id)])%list)
    else (Ok (createSuccessResponse
                (VObj [("success", VBool true);
                       ("user", sanitized_user (data r));
                       ("authenticated_as",
                        VObj [("email", prop (firebaseUser context) "email");
                              ("firebase_uid", prop (firebaseUser context) "localId")])])
                None None),
          (t ++ [ESelect "users" "id" (VStr id)])%list).
Proof.
  intros Hid Hne Hsel Herr Hdata.
  unfold get_user_handler, getRequiredQueryParam.
  rewrite Hid, (present_not_absent _ Hne). cbn [str_of].
  unfold bind at 1. unfold ret at 1.
  unfold select_single, bind at 1 2, emit, ret at 1. rewrite Hsel, Herr, Hdata.
  cbn [negb orb].
  pose proof (truthy_not_nullish _ Hdata) as Hn.
  unfold bind at 1. rewrite (get_prop_defined _ _ _ Hn).
  unfold bind at 1. rewrite opt_get_prop.
  destruct (strict_eq (prop (data r) "firebase_uid")
              (prop (firebaseUser context) "localId")).
  - cbn [negb]. unfold bind. rewrite (sanitizeUserData_defined _ _ Hn).
    rewrite !opt_get_prop. reflexivity.
  - reflexivity.
Qed.

(** C7: on an authenticated get-user request whose record is found, when
    the record's [firebase_uid] differs from the [localId] of the
    authenticated account the answer has status 403 and a message that
    contains [Forbidden]; when they are the same the answer has status 200
    and its [user] object has the six fields id, name, email, firebase_uid,
    created_at and updated_at, and no other. *)
Theorem get_user_checks_ownership (w : World) (req : Request) (t t1 : list event)
    (context : MiddlewareContext) (user : value) (id : string) (r : DbResult) :
  method req <> "OPTIONS" ->
  validate_env w {| requireAuth := true; validateEnv := true |} t = (Ok tt, t) ->
  create_context w req t = (Ok context, t) ->
  extractAndVerifyToken w req t = (Ok user, t1) ->
  lookup "id" (searchParams (url context)) = Some id ->
  id <> EmptyString ->
  select_eq_single (supabaseClient context) "users" "id" (VStr id) = r ->
  truthy (error r) = false ->
  truthy (data r) = true ->
  (strict_eq (prop (data r) "firebase_uid") (prop user "localId") = false ->
   get_user w req t =
     (Ok {| body := error_envelope "Forbidden: You can only access your own user data";
            status := 403; headers := corsHeaders |},
      (t1 ++ [ESelect "users" "id" (VStr id)])%list)
   /\ includes "Forbidden: You can only access your own user data" "Forbidden" = true)
  /\ (strict_eq (prop (data r) "firebase_uid") (prop user "localId") = true ->
      get_user w req t =
        (Ok {| body := body_text (JSON_stringify
                 (VObj [("success", VBool true);
                        ("user",
                         VObj [("id", prop (data r) "id");
                               ("name", prop (data r) "name");
                               ("email", prop (data r) "email");
                               ("firebase_uid", prop (data r) "firebase_uid");
                               ("created_at", prop (data r) "created_at");
                               ("updated_at", prop (data r) "updated_at")]);
                        ("authenticated_as",
                         VObj [("email", prop user "email");
                               ("firebase_uid", prop user "localId")])]));
               status := 200; headers := corsHeaders |},
         (t1 ++ [ESelect "users" "id" (VStr id)])%list)).
Proof.
  intros Hm Hv Hc He Hid Hne Hsel Herr Hdata.
  assert (Hrun : get_user w req t =
                 try_catch
                   (get_user_handler req
                      {| firebaseUser := user; supabaseClient := supabaseClient context;
                         url := url context |})
                   error_to_response t1).
  { unfold get_user.
    rewrite (withMiddleware_past_context _ _ _ _ _ _ Hm Hv Hc).
    apply authentication_success; [reflexivity | exact He]. }
  pose proof (get_user_handler_found req
                {| firebaseUser := user; supabaseClient := supabaseClient context;
                   url := url context |} t1 id r Hid Hne Hsel Herr Hdata) as Hh.
  cbn [firebaseUser] in Hh.
  split; intros Heq; rewrite Heq in Hh; cbn [negb] in Hh; rewrite Hrun.
  - split; [| reflexivity].
    rewrite (try_catch_throw _ _ _ _ _ Hh). reflexivity.
  - rewrite (try_catch_ok _ _ _ _ _ Hh). reflexivity.
Qed.

(** The record of the account itself: the stored password hash is not part
    of the answer. *)
Example own_record_is_sanitized :
  get_user
    (Scenario.world Scenario.full_env
       (Scenario.replies true (Scenario.one_account "uid-ann")))
    (Scenario.request "GET" (Some "Bearer tok") Scenario.no_body) [] =
    (Ok {| body := body_text (JSON_stringify
             (VObj [("success", VBool true);
                    ("user",
                     VObj [("id", VNum 7); ("name", VStr "Ann");
                           ("email", VStr "ann@example.org");
                           ("firebase_uid", VStr "uid-ann");
                           ("created_at", VStr "2024-01-01");
                           ("updated_at", VStr "2024-02-02")]);
                    ("authenticated_as",
                     VObj [("email", VStr "ann@example.org");
                           ("firebase_uid", VStr "uid-ann")])]));
           status := 200; headers := corsHeaders |},
     [lookup_call "webkey" "tok"; ESelect "users" "id" (VStr "7")]).
Proof. reflexivity. Qed.

Lemma get_user_checks_ownership_witness :
  get_user
    (Scenario.world Scenario.full_env
       (Scenario.replies true (Scenario.one_account "uid-bob")))
    (Scenario.request "GET" (Some "Bearer tok") Scenario.no_body) [] =
    (Ok {| body := error_envelope "Forbidden: You can only access your own user data";
           status := 403; headers := corsHeaders |},
     [lookup_call "webkey" "tok"; ESelect "users" "id" (VStr "7")]).
Proof.
  refine (proj1 (proj1
            (get_user_checks_ownership
               (Scenario.world Scenario.full_env
                  (Scenario.replies true (Scenario.one_account "uid-bob")))
               (Scenario.request "GET" (Some "Bearer tok") Scenario.no_body)
               [] [lookup_call "webkey" "tok"]
               {| firebaseUser := VUndefined; supabaseClient := Scenario.store;
                  url := {| searchParams := [("id", "7")] |} |}
               (Scenario.account "uid-bob") "7"
               {| data := Scenario.row; error := VNull |}
               _ _ _ _ _ _ _ _ _) _)).
  all: try reflexivity; discriminate.
Defined.

(** ** login *)

Lemma validateRequiredFields_login (body : value) (t : list event) :
  truthy (prop body "email") = true ->
  truthy (prop body "password") = true ->
  validateRequiredFields body ["email"; "password"] t = (Ok tt, t).
Proof.
  intros He Hp.
  pose proof (prop_truthy_not_nullish _ _ He) as Hn.
  unfold validateRequiredFields, missing_fields, bind.
  rewrite !(get_prop_defined _ _ _ Hn). unfold ret. rewrite He, Hp. reflexivity.
Qed.

Lemma authenticateWithFirebase_rejected (w : World) (email password : value)
    (key : string) (response : FetchResponse) (errorData : value) (t : list event) :
  Deno_env_get w "FIREBASE_WEB_API_KEY" = Some key ->
  key <> EmptyString ->
  fetch_reply w (signIn_url key)
    (JSON_stringify (VObj [("email", email); ("password", password);
                           ("returnSecureToken", VBool true)])) = Returns response ->
  ok response = false ->
  res_json response = Returns errorData ->
  nullish errorData = false ->
  authenticateWithFirebase w email password t =
    (Throw (new_Error (or_else (prop (prop errorData "error") "message")
                         (VStr "Invalid login credentials"))),
     (t ++ [signIn_call key email password])%list).
Proof.
  intros Hkey Hset Hreply Hok Hjson Hn.
  unfold authenticateWithFirebase. rewrite Hkey, (present_not_absent _ Hset).
  cbn [str_of]. unfold fetch, bind at 1 2, emit. rewrite Hreply.
  cbn [lift]. unfold ret at 1. rewrite Hok. cbn [negb].
  rewrite Hjson. unfold bind, lift, ret.
  rewrite (get_prop_defined _ _ _ Hn), opt_get_prop. reflexivity.
Qed.

(** Whatever the provider says when it rejects the credentials, the answer
    is the envelope of its message, with the status the classification of
    that message gives; no token is part of it. *)
Lemma login_rejected (w : World) (req : Request) (t : list event)
    (context : MiddlewareContext) (body : value) (key : string)
    (response : FetchResponse) (errorData : value) :
  method req <> "OPTIONS" ->
  validate_env w {| requireAuth := false; validateEnv := true |} t = (Ok tt, t) ->
  create_context w req t = (Ok context, t) ->
  req_json req = Returns body ->
  truthy (prop body "email") = true ->
  truthy (prop body "password") = true ->
  Deno_env_get w "FIREBASE_WEB_API_KEY" = Some key ->
  key <> EmptyString ->
  fetch_reply w (signIn_url key)
    (JSON_stringify (VObj [("email", prop body "email"); ("password", prop body "password");
                           ("returnSecureToken", VBool true)])) = Returns response ->
  ok response = false ->
  res_json response = Returns errorData ->
  nullish errorData = false ->
  login w req t =
    (Ok {| body := error_envelope
                     (shown_message
                        (error_message
                           (or_else (prop (prop errorData "error") "message")
                              (VStr "Invalid login credentials"))));
           status := spec_status
                       (error_message
                          (or_else (prop (prop errorData "error") "message")
                             (VStr "Invalid login credentials")));
           headers := corsHeaders |},
     (t ++ [signIn_call key (prop body "email") (prop body "password")])%list).
Proof.
  intros Hm Hv Hc Hjson He Hp Hkey Hset Hreply Hok Hrj Hn.
  unfold login. rewrite (withMiddleware_past_context _ _ _ _ _ _ Hm Hv Hc).
  pose proof (prop_truthy_not_nullish _ _ He) as Hb.
  assert (Hh : (context' <- authenticate w req {| requireAuth := false; validateEnv := true |} context ;;
                login_handler w req context') t =
               (Throw (new_Error (or_else (prop (prop errorData "error") "message")
                         (VStr "Invalid login credentials"))),
                (t ++ [signIn_call key (prop body "email") (prop body "password")])%list)).
  { unfold authenticate. cbn [requireAuth]. unfold bind at 1. unfold ret at 1.
    unfold login_handler. rewrite Hjson. cbn [lift]. unfold bind at 1. unfold ret at 1.
    unfold bind at 1. rewrite (get_prop_defined _ _ _ Hb).
    unfold bind at 1. rewrite (get_prop_defined _ _ _ Hb).
    unfold bind at 1. rewrite (validateRequiredFields_login _ _ He Hp).
    unfold bind at 1.
    rewrite (authenticateWithFirebase_rejected w _ _ key response errorData t
               Hkey Hset Hreply Hok Hrj Hn).
    reflexivity. }
  rewrite (try_catch_throw _ _ _ _ _ Hh).
  unfold new_Error. rewrite error_to_response_of_Error. reflexivity.
Qed.

(** C9: a login with a well-formed body and a wrong password, which the
    provider rejects with a non-2xx reply and the message INVALID_PASSWORD,
    is answered with status 500 (and no token bundle), where the
    specification asks for 401 or 400. *)
Theorem wrong_password_answers_500 :
  login
    (Scenario.world Scenario.full_env
       (Scenario.replies false (Scenario.provider_error "INVALID_PASSWORD")))
    (Scenario.request "POST" None (Returns Scenario.credentials)) [] =
    (Ok {| body := error_envelope "INVALID_PASSWORD";
           status := 500; headers := corsHeaders |},
     [signIn_call "webkey" (VStr "ann@example.org") (VStr "wrong-password")]).
Proof. reflexivity. Qed.

(** ** Registration *)

Lemma accounts_url_kinds (key : string) :
  is_delete_call (EFetch (Register.delete_url key) None) = true
  /\ is_delete_call (EFetch (Register.signUp_url key) None) = false.
Proof. split; reflexivity. Qed.

Section Registration.

Variables (w : World) (req : Request) (t : list event).
Variables (requestBody user : value) (key : string).
Variables (response : FetchResponse) (client : SupabaseClient) (r : DbResult).

Hypothesis Hm : method req <> "OPTIONS".
Hypothesis Hbody : req_json req = Returns requestBody.
Hypothesis Hname : truthy (prop requestBody "name") = true.
Hypothesis Hemail : truthy (prop requestBody "email") = true.
Hypothesis Hpassword : truthy (prop requestBody "password") = true.
Hypothesis Hlong :
  Register.less_than (length_of (prop requestBody "password")) 6 = false.
Hypothesis Hkey : Deno_env_get w "FIREBASE_WEB_API_KEY" = Some key.
Hypothesis Hkey_set : key <> EmptyString.
Hypothesis Hcreated :
  fetch_reply w (Register.signUp_url key)
    (JSON_stringify (VObj [("email", prop requestBody "email");
                           ("password", prop requestBody "password");
                           ("displayName", prop requestBody "name");
                           ("returnSecureToken", VBool true)]))
  = Returns response.
Hypothesis Hok : ok response = true.
Hypothesis Huser : res_json response = Returns user.
Hypothesis Huser_defined : nullish user = false.
Hypothesis Hclient :
  createClient w (nullish_or (Deno_env_get w "SUPABASE_URL") EmptyString)
    (nullish_or (Deno_env_get w "SUPABASE_SERVICE_ROLE_KEY") EmptyString)
  = Returns client.
Hypothesis Hinsert :
  insert_select_single client "users"
    (VObj [("name", prop requestBody "name"); ("email", prop requestBody "email");
           ("firebase_uid", prop user "localId")]) = r.
Hypothesis Hfailed : truthy (error r) = true.

(** The run up to the failed insert: what is left is the rollback and the
    [catch]. *)
Lemma register_reaches_rollback :
  Register.serve w req t =
    try_catch
      (fetch w (Register.delete_url key)
         (JSON_stringify (VObj [("idToken", prop user "idToken")])) ;;
       throw (ErrorObject ("Database error: " ++ to_string (prop (error r) "message"))))
      (fun error =>
         m <- message_of error ;;
         ret (new_Response
                (Register.error_body
                   (or_else m (VStr "Internal server error during registration")))
                (Some 500%Z) Register.jsonHeaders))
      (t ++ [signUp_call key (prop requestBody "name") (prop requestBody "email")
               (prop requestBody "password");
             EInsert "users"
               (VObj [("name", prop requestBody "name");
                      ("email", prop requestBody "email");
                      ("firebase_uid", prop user "localId")])])%list.
Proof.
  unfold Register.serve.
  destruct (String.eqb_spec (method req) "OPTIONS") as [E|_]; [contradiction|].
  pose proof (prop_truthy_not_nullish _ _ Hname) as Hb.
  unfold try_catch. rewrite Hbody. cbn [lift]. unfold bind at 1. unfold ret at 1.
  unfold bind at 1. rewrite (get_prop_defined _ _ _ Hb).
  unfold bind at 1. rewrite (get_prop_defined _ _ _ Hb).
  unfold bind at 1. rewrite (get_prop_defined _ _ _ Hb).
  rewrite Hname, Hemail, Hpassword. cbn [negb orb].
  rewrite Hlong. rewrite Hkey, (present_not_absent _ Hkey_set). cbn [str_of].
  unfold fetch at 1. unfold bind at 1 2. unfold emit at 1. rewrite Hcreated. cbn [lift].
  unfold ret at 1. rewrite Hok. cbn [negb]. rewrite Huser. cbn [lift].
  unfold bind at 1. unfold ret at 1.
  rewrite Hclient. cbn [lift]. unfold bind at 1. unfold ret at 1.
  unfold bind at 1. rewrite (get_prop_defined _ _ _ Huser_defined).
  unfold insert_single. unfold bind at 1 2. unfold emit at 1. unfold ret at 1.
  rewrite Hinsert, Hfailed.
  unfold bind at 1. rewrite (get_prop_defined _ _ _ Huser_defined).
  pose proof (truthy_not_nullish _ Hfailed) as He.
  rewrite <- app_assoc. cbn [app]. unfold signUp_call.
  unfold bind.
  destruct (fetch w (Register.delete_url key)
              (JSON_stringify (VObj [("idToken", prop user "idToken")])) _)
    as [[u|e] t'].
  - rewrite (get_prop_defined _ _ _ He). reflexivity.
  - reflexivity.
Qed.

End Registration.

(** C8: on a registration request for which the provider creates the
    account and the insert into the store then fails, the calls issued are,
    in this order, the sign-up, the insert and one account deletion that
    carries the [idToken] of the sign-up reply; the answer, given after
    them, has status 500, and it carries the database error when the
    deletion call itself settles. *)
Theorem register_rolls_back_once (w : World) (req : Request) (t : list event)
    (requestBody user : value) (key : string) (response : FetchResponse)
    (client : SupabaseClient) (r : DbResult) :
  method req <> "OPTIONS" ->
  req_json req = Returns requestBody ->
  truthy (prop requestBody "name") = true ->
  truthy (prop requestBody "email") = true ->
  truthy (prop requestBody "password") = true ->
  Register.less_than (length_of (prop requestBody "password")) 6 = false ->
  Deno_env_get w "FIREBASE_WEB_API_KEY" = Some key ->
  key <> EmptyString ->
  fetch_reply w (Register.signUp_url key)
    (JSON_stringify (VObj [("email", prop requestBody "email");
                           ("password", prop requestBody "password");
                           ("displayName", prop requestBody "name");
                           ("returnSecureToken", VBool true)]))
  = Returns response ->
  ok response = true ->
  res_json response = Returns user ->
  nullish user = false ->
  createClient w (nullish_or (Deno_env_get w "SUPABASE_URL") EmptyString)
    (nullish_or (Deno_env_get w "SUPABASE_SERVICE_ROLE_KEY") EmptyString)
  = Returns client ->
  insert_select_single client "users"
    (VObj [("name", prop requestBody "name"); ("email", prop requestBody "email");
           ("firebase_uid", prop user "localId")]) = r ->
  truthy (error r) = true ->
  exists resp,
    Register.serve w req t =
      (Ok resp,
       (t ++ [signUp_call key (prop requestBody "name") (prop requestBody "email")
                (prop requestBody "password");
              EInsert "users"
                (VObj [("name", prop requestBody "name");
                       ("email", prop requestBody "email");
                       ("firebase_uid", prop user "localId")]);
              delete_call key (prop user "idToken")])%list)
    /\ status resp = 500%Z
    /\ List.length
         (filter is_delete_call
            [signUp_call key (prop requestBody "name") (prop requestBody "email")
               (prop requestBody "password");
             EInsert "users"
               (VObj [("name", prop requestBody "name");
                      ("email", prop requestBody "email");
                      ("firebase_uid", prop user "localId")]);
             delete_call key (prop user "idToken")]) = 1
    /\ (forall reply,
          fetch_reply w (Register.delete_url key)
            (JSON_stringify (VObj [("idToken", prop user "idToken")])) = Returns reply ->
          body resp =
            error_envelope ("Database error: " ++ to_string (prop (error r) "message"))).
Proof.
  intros Hm Hbody Hname Hemail Hpassword Hlong Hkey Hset Hcreated Hok Huser Hdef
    Hclient Hinsert Hfailed.
  rewrite (register_reaches_rollback w req t requestBody user key response client r
             Hm Hbody Hname Hemail Hpassword Hlong Hkey Hset Hcreated Hok Huser Hdef
             Hclient Hinsert Hfailed).
  unfold try_catch, fetch, bind, emit, delete_call.
  rewrite <- app_assoc. cbn [app].
  destruct (fetch_reply w (Register.delete_url key)
              (JSON_stringify (VObj [("idToken", prop user "idToken")])))
    as [reply | m] eqn:Hdel; cbn [lift].
  - eexists. split; [reflexivity |]. split; [reflexivity |]. split; [reflexivity |].
    intros reply' _. reflexivity.
  - eexists. split; [reflexivity |]. split; [reflexivity |]. split; [reflexivity |].
    intros reply'. discriminate.
Qed.

Lemma register_rolls_back_once_witness :
  exists resp,
    Register.serve
      (Scenario.world Scenario.full_env (Scenario.replies true Scenario.token_bundle))
      (Scenario.request "POST" None (Returns Scenario.credentials)) [] =
      (Ok resp,
       [signUp_call "webkey" (VStr "Ann") (VStr "ann@example.org") (VStr "wrong-password");
        EInsert "users"
          (VObj [("name", VStr "Ann"); ("email", VStr "ann@example.org");
                 ("firebase_uid", VStr "uid-new")]);
        delete_call "webkey" (VStr "fresh-token")])
    /\ status resp = 500%Z
    /\ body resp = error_envelope "Database error: duplicate key value".
Proof.
  destruct (register_rolls_back_once
              (Scenario.world Scenario.full_env (Scenario.replies true Scenario.token_bundle))
              (Scenario.request "POST" None (Returns Scenario.credentials)) []
              Scenario.credentials Scenario.token_bundle "webkey"
              {| ok := true; res_json := Returns Scenario.token_bundle |}
              Scenario.store
              {| data := VNull; error := VObj [("message", VStr "duplicate key value")] |})
    as [resp [Hrun [Hstatus [_ Hbody]]]];
    try reflexivity; try discriminate.
  exists resp. split; [exact Hrun |]. split; [exact Hstatus |].
  exact (Hbody {| ok := true; res_json := Returns Scenario.token_bundle |} eq_refl).
Defined.

(** * Further properties of the code *)

(** ** Case analysis of a whole endpoint *)

Ltac split_innermost :=
  match goal with
  | |- context [match ?x with _ => _ end] =>
      lazymatch x with
      | context [match _ with _ => _ end] => fail
      | _ => destruct x eqn:?
      end
  end.

Ltac run_all := repeat (cbv beta iota zeta; split_innermost).

Ltac settle_trace :=
  repeat match goal with H : (_, _) = (_, _) |- _ => injection H as <- <- end;
  repeat rewrite <- app_assoc; cbn [app];
  eexists; eexists;
  (split; [first [reflexivity | rewrite app_nil_r; reflexivity] |]).

(** ** Response headers *)






(** ** validateRequiredFields *)

Lemma missing_fields_defined (data : value) (fields : list string) (t : list event) :
  nullish data = false ->
  missing_fields data fields t =
    (Ok (filter (fun field => negb (truthy (prop data field))) fields), t).
Proof.
  intros Hn. induction fields as [| field rest IH]; cbn [missing_fields filter].
  - reflexivity.
  - unfold bind. rewrite (get_prop_defined _ _ _ Hn), IH. unfold ret.
    destruct (truthy (prop data field)); reflexivity.
Qed.

Lemma validateRequiredFields_defined (data : value) (fields : list string)
    (t : list event) :
  nullish data = false ->
  validateRequiredFields data fields t =
    match filter (fun field => negb (truthy (prop data field))) fields with
    | [] => (Ok tt, t)
    | missing =>
        (Throw (ErrorObject ("Missing required fields: " ++ join ", " missing)), t)
    end.
Proof.
  intros Hn. unfold validateRequiredFields, bind.
  rewrite (missing_fields_defined _ _ _ Hn).
  destruct (filter _ fields); reflexivity.
Qed.


(** ** The pipeline around the handler *)

(** X3: without authentication, once the preflight test, the validation
    and the context construction are passed, the handler is the first to
    issue an outside call; it receives a context with no account, and the
    response it returns is the response of the pipeline, unchanged. *)
Theorem unauthenticated_handler_runs_first (w : World) (req : Request) (handler : Handler)
    (options : Options) (t : list event) (context : MiddlewareContext) :
  method req <> "OPTIONS" ->
  requireAuth options = false ->
  validate_env w options t = (Ok tt, t) ->
  create_context w req t = (Ok context, t) ->
  firebaseUser context = VUndefined
  /\ withMiddleware w req handler options t =
       try_catch (handler req context) error_to_response t
  /\ (forall resp t', handler req context t = (Ok resp, t') ->
        withMiddleware w req handler options t = (Ok resp, t')).
Proof.
  intros Hm Ha Hv Hc.
  assert (Hrun : withMiddleware w req handler options t =
                 try_catch (handler req context) error_to_response t).
  { rewrite (withMiddleware_past_context _ _ _ _ _ _ Hm Hv Hc).
    unfold authenticate. rewrite Ha. reflexivity. }
  split; [| split; [exact Hrun |]].
  - unfold create_context, bind in Hc.
    destruct (createSupabaseClient w t) as [[client | e] t0]; [| discriminate].
    destruct (lift (new_URL w (req_url req)) t0) as [[u | e] t1]; [| discriminate].
    unfold ret in Hc. injection Hc as <- _. reflexivity.
  - intros resp t' Hh. rewrite Hrun. apply try_catch_ok. exact Hh.
Qed.

Lemma unauthenticated_handler_runs_first_witness :
  withMiddleware (Scenario.world Scenario.full_env (Scenario.replies false VNull))
    (Scenario.request "POST" None Scenario.no_body)
    (Scenario.answers (new_Response (Some "created") (Some 201%Z) [("X-Trace", "on")]))
    Scenario.plain [] =
    (Ok {| body := "created"; status := 201; headers := [("X-Trace", "on")] |}, []).
Proof.
  refine (proj2 (proj2
            (unauthenticated_handler_runs_first
               (Scenario.world Scenario.full_env (Scenario.replies false VNull))
               (Scenario.request "POST" None Scenario.no_body)
               (Scenario.answers
                  (new_Response (Some "created") (Some 201%Z) [("X-Trace", "on")]))
               Scenario.plain [] (More.context_of Scenario.store [("id", "7")])
               _ _ _ _)) _ [] _).
  all: try reflexivity; discriminate.
Defined.

Lemma spec_status_range (message : string) :
  In (spec_status message) [400; 401; 403; 404; 500]%Z.
Proof.
  unfold spec_status.
  destruct (includes message "Unauthorized"); [cbn; tauto |].
  destruct (includes message "Missing required"); [cbn; tauto |].
  destruct (includes message "not found" || includes message "Not found");
    [cbn; tauto |].
  destruct (includes message "Forbidden"); cbn; tauto.
Qed.

(** X4: with a handler that fails with [Error] instances only, every
    invocation of the pipeline settles with a response, and that response is
    either the one the try block returned (the preflight answer or the
    handler's response) or an error response with the CORS headers and one of
    the statuses 400, 401, 403, 404 and 500. *)
Theorem pipeline_answers_or_classifies (w : World) (req : Request) (handler : Handler)
    (options : Options) (t : list event) :
  (forall req' context, throws_errors_only (handler req' context)) ->
  exists resp t',
    withMiddleware w req handler options t = (Ok resp, t')
    /\ (pipeline w req handler options t = (Ok resp, t')
        \/ (headers resp = corsHeaders
            /\ In (status resp) [400; 401; 403; 404; 500]%Z)).
Proof.
  intros Hh. unfold withMiddleware, try_catch.
  destruct (pipeline w req handler options t) as [[resp | [message | v]] t'] eqn:E.
  - exists resp, t'. split; [reflexivity | left; reflexivity].
  - rewrite error_to_response_of_Error. eexists. eexists.
    split; [reflexivity | right]. split; [reflexivity | apply spec_status_range].
  - exfalso. exact (teo_pipeline w req handler options Hh _ _ _ E).
Qed.

Lemma pipeline_answers_or_classifies_witness :
  exists resp t',
    withMiddleware (Scenario.world Scenario.full_env (Scenario.replies false VNull))
      (Scenario.request "GET" None Scenario.no_body)
      (Scenario.fails (ErrorObject "Forbidden: read only")) Scenario.plain [] =
      (Ok resp, t')
    /\ (pipeline (Scenario.world Scenario.full_env (Scenario.replies false VNull))
          (Scenario.request "GET" None Scenario.no_body)
          (Scenario.fails (ErrorObject "Forbidden: read only")) Scenario.plain [] =
          (Ok resp, t')
        \/ (headers resp = corsHeaders
            /\ In (status resp) [400; 401; 403; 404; 500]%Z)).
Proof.
  apply (pipeline_answers_or_classifies
           (Scenario.world Scenario.full_env (Scenario.replies false VNull))
           (Scenario.request "GET" None Scenario.no_body)
           (Scenario.fails (ErrorObject "Forbidden: read only")) Scenario.plain []).
  intros req' context t v t'. discriminate.
Defined.

(** ** The provider key *)

(** X5: when the provider key is not set (or empty), neither the token
    verification nor the password sign-in calls the provider: both fail at
    once with [Firebase Web API Key not configured], and the verification
    does not prefix this message. *)
Theorem provider_key_required (w : World) (token : string) (email password : value)
    (t : list event) :
  absent (Deno_env_get w "FIREBASE_WEB_API_KEY") = true ->
  verifyFirebaseToken w token t =
    (Throw (ErrorObject "Firebase Web API Key not configured"), t)
  /\ authenticateWithFirebase w email password t =
       (Throw (ErrorObject "Firebase Web API Key not configured"), t).
Proof.
  intros H. unfold verifyFirebaseToken, authenticateWithFirebase. rewrite H.
  split; reflexivity.
Qed.

Lemma provider_key_required_witness :
  verifyFirebaseToken
    (Scenario.world [("SUPABASE_URL", "https://db.example.org");
                     ("SUPABASE_SERVICE_ROLE_KEY", "service");
                     ("FIREBASE_WEB_API_KEY", EmptyString)]
       (Scenario.replies true (Scenario.one_account "uid-ann")))
    "tok" [] =
    (Throw (ErrorObject "Firebase Web API Key not configured"), []).
Proof.
  refine (proj1 (provider_key_required
                   (Scenario.world [("SUPABASE_URL", "https://db.example.org");
                                    ("SUPABASE_SERVICE_ROLE_KEY", "service");
                                    ("FIREBASE_WEB_API_KEY", EmptyString)]
                      (Scenario.replies true (Scenario.one_account "uid-ann")))
                   "tok" VNull VNull [] _)).
  reflexivity.
Defined.

Lemma authenticateWithFirebase_accepted (w : World) (email password : value)
    (key : string) (response : FetchResponse) (t : list event) :
  Deno_env_get w "FIREBASE_WEB_API_KEY" = Some key ->
  key <> EmptyString ->
  fetch_reply w (signIn_url key)
    (JSON_stringify (VObj [("email", email); ("password", password);
                           ("returnSecureToken", VBool true)])) = Returns response ->
  ok response = true ->
  authenticateWithFirebase w email password t =
    (match res_json response with
     | Returns payload => Ok payload
     | Raises message => Throw (ErrorObject message)
     end, (t ++ [signIn_call key email password])%list).
Proof.
  intros Hkey Hset Hreply Hok.
  unfold authenticateWithFirebase. rewrite Hkey, (present_not_absent _ Hset).
  cbn [str_of]. unfold fetch, bind, emit. rewrite Hreply. cbn [lift]. unfold ret at 1.
  rewrite Hok. cbn [negb]. destruct (res_json response); reflexivity.
Qed.

(** ** get-user on the pipeline *)

(** X6: whatever the environment, the request and the providers' answers
    are, get-user settles with a response whose status is one of 200, 400,
    401, 403, 404 and 500, and the outside calls it has issued by then are
    none, or one account lookup, or one account lookup followed by one select
    on the users table: the store is never queried before the provider has
    been asked about the token, and nothing is ever written. *)

Theorem get_user_call_sequences (w : World) (req : Request) (t : list event) :
  exists resp ext,
    get_user w req t = (Ok resp, (t ++ ext)%list)
    /\ get_user_calls ext
    /\ In (status resp) [200; 400; 401; 403; 404; 500]%Z.
Proof.
  cbv beta zeta delta [get_user withMiddleware pipeline handleCorsPreflightRequest
    validate_env create_context createSupabaseClient authenticate extractAndVerifyToken
    verifyFirebaseToken get_user_handler getRequiredQueryParam select_single
    sanitizeUserData error_to_response includes_method
    try_catch bind fetch emit lift get_prop opt_get message_of ret throw new_Error
    type_error_read requireAuth validateEnv].
  run_all.
  all: try discriminate.
  all: settle_trace.
  all: (split; [| cbn; tauto]).
  all: unfold get_user_calls, lookup_call.
  all: try (left; reflexivity).
  all: try (right; left; eexists; eexists; reflexivity).
  all: try (right; right; eexists; eexists; eexists; reflexivity).
Qed.

Lemma get_user_authenticated (w : World) (req : Request) (t t1 : list event)
    (context : MiddlewareContext) (user : value) :
  method req <> "OPTIONS" ->
  validate_env w {| requireAuth := true; validateEnv := true |} t = (Ok tt, t) ->
  create_context w req t = (Ok context, t) ->
  extractAndVerifyToken w req t = (Ok user, t1) ->
  get_user w req t =
    try_catch
      (get_user_handler req
         {| firebaseUser := user; supabaseClient := supabaseClient context;
            url := url context |})
      error_to_response t1.
Proof.
  intros Hm Hv Hc He. unfold get_user.
  rewrite (withMiddleware_past_context _ _ _ _ _ _ Hm Hv Hc).
  apply authentication_success; [reflexivity | exact He].
Qed.

(** X7: an authenticated get-user request without an [id] query parameter
    (or with an empty one) is answered with status 400 and the message
    [Missing required query parameter: id]; the store is not queried. *)

Theorem get_user_requires_id (w : World) (req : Request) (t t1 : list event)
    (context : MiddlewareContext) (user : value) :
  method req <> "OPTIONS" ->
  validate_env w {| requireAuth := true; validateEnv := true |} t = (Ok tt, t) ->
  create_context w req t = (Ok context, t) ->
  extractAndVerifyToken w req t = (Ok user, t1) ->
  absent (lookup "id" (searchParams (url context))) = true ->
  get_user w req t =
    (Ok {| body := error_envelope "Missing required query parameter: id";
           status := 400; headers := corsHeaders |}, t1).
Proof.
  intros Hm Hv Hc He Hid.
  rewrite (get_user_authenticated _ _ _ _ _ _ Hm Hv Hc He).
  unfold get_user_handler, getRequiredQueryParam. cbn [url]. rewrite Hid.
  reflexivity.
Qed.

Lemma get_user_requires_id_witness :
  get_user
    (More.world_on Scenario.store [("page", "2")] Scenario.full_env
       (Scenario.replies true (Scenario.one_account "uid-ann")))
    (Scenario.request "GET" (Some "Bearer tok") Scenario.no_body) [] =
    (Ok {| body := error_envelope "Missing required query parameter: id";
           status := 400; headers := corsHeaders |},
     [lookup_call "webkey" "tok"]).
Proof.
  refine (get_user_requires_id
            (More.world_on Scenario.store [("page", "2")] Scenario.full_env
               (Scenario.replies true (Scenario.one_account "uid-ann")))
            (Scenario.request "GET" (Some "Bearer tok") Scenario.no_body)
            [] [lookup_call "webkey" "tok"]
            (More.context_of Scenario.store [("page", "2")])
            (Scenario.account "uid-ann") _ _ _ _ _).
  all: try reflexivity; discriminate.
Defined.

(** X8: an authenticated get-user request whose select comes back with an
    error, or with no row, is answered with status 404 and the message
    [User not found], whatever the error was. *)

Theorem get_user_unknown_record (w : World) (req : Request) (t t1 : list event)
    (context : MiddlewareContext) (user : value) (id : string) (r : DbResult) :
  method req <> "OPTIONS" ->
  validate_env w {| requireAuth := true; validateEnv := true |} t = (Ok tt, t) ->
  create_context w req t = (Ok context, t) ->
  extractAndVerifyToken w req t = (Ok user, t1) ->
  lookup "id" (searchParams (url context)) = Some id ->
  id <> EmptyString ->
  select_eq_single (supabaseClient context) "users" "id" (VStr id) = r ->
  truthy (error r) || negb (truthy (data r)) = true ->
  get_user w req t =
    (Ok {| body := error_envelope "User not found";
           status := 404; headers := corsHeaders |},
     (t1 ++ [ESelect "users" "id" (VStr id)])%list).
Proof.
  intros Hm Hv Hc He Hid Hne Hsel Hmiss.
  rewrite (get_user_authenticated _ _ _ _ _ _ Hm Hv Hc He).
  unfold get_user_handler, getRequiredQueryParam. cbn [url supabaseClient].
  rewrite Hid, (present_not_absent _ Hne). cbn [str_of].
  unfold try_catch, bind at 1, ret at 1, select_single, bind at 1 2, emit, ret at 1.
  rewrite Hsel, Hmiss. reflexivity.
Qed.


Lemma get_user_unknown_record_witness :
  get_user
    (More.world_on More.empty_store [("id", "7")] Scenario.full_env
       (Scenario.replies true (Scenario.one_account "uid-ann")))
    (Scenario.request "GET" (Some "Bearer tok") Scenario.no_body) [] =
    (Ok {| body := error_envelope "User not found";
           status := 404; headers := corsHeaders |},
     [lookup_call "webkey" "tok"; ESelect "users" "id" (VStr "7")]).
Proof.
  refine (get_user_unknown_record
            (More.world_on More.empty_store [("id", "7")] Scenario.full_env
               (Scenario.replies true (Scenario.one_account "uid-ann")))
            (Scenario.request "GET" (Some "Bearer tok") Scenario.no_body)
            [] [lookup_call "webkey" "tok"]
            (More.context_of More.empty_store [("id", "7")])
            (Scenario.account "uid-ann") "7"
            {| data := VNull; error := VObj [("message", VStr "no rows")] |}
            _ _ _ _ _ _ _ _).
  all: try reflexivity; discriminate.
Defined.

(** ** login on the pipeline *)

(** X9: whatever the environment, the request and the providers' answers
    are, login settles with a response whose status is one of 200, 400, 401,
    403, 404 and 500, and the outside calls it has issued by then are none,
    or one password sign-in, or one sign-in followed by one select on the
    users table by [firebase_uid]. *)

Theorem login_call_sequences (w : World) (req : Request) (t : list event) :
  exists resp ext,
    login w req t = (Ok resp, (t ++ ext)%list)
    /\ login_calls ext
    /\ In (status resp) [200; 400; 401; 403; 404; 500]%Z.
Proof.
  cbv beta zeta delta [login withMiddleware pipeline handleCorsPreflightRequest
    validate_env create_context createSupabaseClient authenticate
    login_handler validateRequiredFields missing_fields authenticateWithFirebase
    select_single sanitizeUserData error_to_response includes_method
    try_catch bind fetch emit lift get_prop opt_get message_of ret throw new_Error
    type_error_read requireAuth validateEnv].
  run_all.
  all: try discriminate.
  all: settle_trace.
  all: (split; [| cbn; tauto]).
  all: unfold login_calls, signIn_call.
  all: try (left; reflexivity).
  all: try (right; left; eexists; eexists; eexists; reflexivity).
  all: try (right; right; eexists; eexists; eexists; eexists; reflexivity).
Qed.

Lemma login_unauthenticated_run (w : World) (req : Request) (t : list event)
    (context : MiddlewareContext) :
  method req <> "OPTIONS" ->
  validate_env w {| requireAuth := false; validateEnv := true |} t = (Ok tt, t) ->
  create_context w req t = (Ok context, t) ->
  login w req t = try_catch (login_handler w req context) error_to_response t.
Proof.
  intros Hm Hv Hc. unfold login.
  rewrite (withMiddleware_past_context _ _ _ _ _ _ Hm Hv Hc). reflexivity.
Qed.

(** X10: a login request whose body lacks [email] or [password] (or holds
    a falsy value for it) is answered with status 400 and the message
    [Missing required fields: ] followed by the missing ones; the provider is
    not called. *)

Theorem login_lists_missing_fields (w : World) (req : Request) (t : list event)
    (context : MiddlewareContext) (requestBody : value) :
  method req <> "OPTIONS" ->
  validate_env w {| requireAuth := false; validateEnv := true |} t = (Ok tt, t) ->
  create_context w req t = (Ok context, t) ->
  req_json req = Returns requestBody ->
  nullish requestBody = false ->
  filter (fun field => negb (truthy (prop requestBody field))) ["email"; "password"]
    <> [] ->
  login w req t =
    (Ok {| body := error_envelope
                     ("Missing required fields: "
                      ++ join ", "
                           (filter (fun field => negb (truthy (prop requestBody field)))
                              ["email"; "password"]));
           status := 400; headers := corsHeaders |}, t).
Proof.
  intros Hm Hv Hc Hjson Hn Hmiss.
  rewrite (login_unauthenticated_run _ _ _ _ Hm Hv Hc).
  unfold login_handler. rewrite Hjson. cbn [lift].
  unfold try_catch, bind at 1, ret at 1.
  unfold bind at 1. rewrite (get_prop_defined _ _ _ Hn).
  unfold bind at 1. rewrite (get_prop_defined _ _ _ Hn).
  unfold bind at 1. rewrite (validateRequiredFields_defined _ _ _ Hn).
  revert Hmiss. cbn [filter].
  destruct (truthy (prop requestBody "email"));
    destruct (truthy (prop requestBody "password")); cbn [negb];
    intros Hmiss; try (exfalso; apply Hmiss; reflexivity); reflexivity.
Qed.

Lemma login_lists_missing_fields_witness :
  login (Scenario.world Scenario.full_env (Scenario.replies false VNull))
    (Scenario.request "POST" None
       (Returns (VObj [("email", VStr "ann@example.org"); ("password", VStr EmptyString)])))
    [] =
    (Ok {| body := error_envelope "Missing required fields: password";
           status := 400; headers := corsHeaders |}, []).
Proof.
  refine (login_lists_missing_fields
            (Scenario.world Scenario.full_env (Scenario.replies false VNull))
            (Scenario.request "POST" None
               (Returns (VObj [("email", VStr "ann@example.org");
                               ("password", VStr EmptyString)])))
            [] (More.context_of Scenario.store [("id", "7")])
            (VObj [("email", VStr "ann@example.org"); ("password", VStr EmptyString)])
            _ _ _ _ _ _).
  all: try reflexivity; discriminate.
Defined.

(** X11: after a sign-in that the provider accepts, login queries the users
    table by the [localId] of the provider's reply. When the select comes
    back with an error or no row the answer is 404 [User not found in
    database] and carries no token; otherwise it is 200 with the sanitized
    record and the [idToken], [refreshToken] and [expiresIn] of the reply as
    [firebase_token], [refresh_token] and [expires_in]. *)

Theorem login_after_sign_in (w : World) (req : Request) (t : list event)
    (context : MiddlewareContext) (requestBody user : value) (key : string)
    (response : FetchResponse) (r : DbResult) :
  method req <> "OPTIONS" ->
  validate_env w {| requireAuth := false; validateEnv := true |} t = (Ok tt, t) ->
  create_context w req t = (Ok context, t) ->
  req_json req = Returns requestBody ->
  truthy (prop requestBody "email") = true ->
  truthy (prop requestBody "password") = true ->
  Deno_env_get w "FIREBASE_WEB_API_KEY" = Some key ->
  key <> EmptyString ->
  fetch_reply w (signIn_url key)
    (JSON_stringify (VObj [("email", prop requestBody "email");
                           ("password", prop requestBody "password");
                           ("returnSecureToken", VBool true)])) = Returns response ->
  ok response = true ->
  res_json response = Returns user ->
  nullish user = false ->
  select_eq_single (supabaseClient context) "users" "firebase_uid" (prop user "localId")
    = r ->
  (truthy (error r) || negb (truthy (data r)) = true ->
   login w req t =
     (Ok {| body := error_envelope "User not found in database";
            status := 404; headers := corsHeaders |},
      (t ++ [signIn_call key (prop requestBody "email") (prop requestBody "password");
             ESelect "users" "firebase_uid" (prop user "localId")])%list))
  /\ (truthy (error r) || negb (truthy (data r)) = false ->
      login w req t =
        (Ok {| body := body_text (JSON_stringify
                 (VObj [("success", VBool true);
                        ("user", sanitized_user (data r));
                        ("firebase_token", prop user "idToken");
                        ("refresh_token", prop user "refreshToken");
                        ("expires_in", prop user "expiresIn")]));
               status := 200; headers := corsHeaders |},
         (t ++ [signIn_call key (prop requestBody "email") (prop requestBody "password");
                ESelect "users" "firebase_uid" (prop user "localId")])%list)).
Proof.
  intros Hm Hv Hc Hjson He Hp Hkey Hset Hreply Hok Hrj Hn Hsel.
  pose proof (prop_truthy_not_nullish _ _ He) as Hb.
  assert (Hrun : login w req t =
            try_catch
              (r' <- select_single (supabaseClient context) "users" "firebase_uid"
                       (prop user "localId") ;;
               if truthy (error r') || negb (truthy (data r')) then
                 throw (ErrorObject "User not found in database")
               else
                 sanitized <- sanitizeUserData (data r') ;;
                 idToken <- get_prop user "idToken" ;;
                 refreshToken <- get_prop user "refreshToken" ;;
                 expiresIn <- get_prop user "expiresIn" ;;
                 ret (createSuccessResponse
                        (VObj [("success", VBool true);
                               ("user", sanitized);
                               ("firebase_token", idToken);
                               ("refresh_token", refreshToken);
                               ("expires_in", expiresIn)])
                        None None))
              error_to_response
              (t ++ [signIn_call key (prop requestBody "email")
                       (prop requestBody "password")])%list).
  { rewrite (login_unauthenticated_run _ _ _ _ Hm Hv Hc).
    unfold login_handler. rewrite Hjson. cbn [lift].
    unfold try_catch, bind at 1, ret at 1.
    unfold bind at 1. rewrite (get_prop_defined _ _ _ Hb).
    unfold bind at 1. rewrite (get_prop_defined _ _ _ Hb).
    unfold bind at 1. rewrite (validateRequiredFields_login _ _ He Hp).
    unfold bind at 1.
    rewrite (authenticateWithFirebase_accepted w _ _ key response t
               Hkey Hset Hreply Hok).
    rewrite Hrj.
    unfold bind at 1. rewrite (get_prop_defined _ _ _ Hn). reflexivity. }
  split; intros Hcase; rewrite Hrun;
    unfold try_catch, select_single, bind at 1 2 3, emit, ret at 1;
    rewrite Hsel; rewrite <- app_assoc; cbn [app]; rewrite Hcase.
  - reflexivity.
  - apply orb_false_iff in Hcase. destruct Hcase as [_ Hdata].
    apply negb_false_iff in Hdata.
    pose proof (truthy_not_nullish _ Hdata) as Hd.
    unfold bind. rewrite (sanitizeUserData_defined _ _ Hd).
    rewrite !(get_prop_defined _ _ _ Hn). reflexivity.
Qed.


Lemma login_after_sign_in_witness :
  login (Scenario.world Scenario.full_env (Scenario.replies true Scenario.token_bundle))
    (Scenario.request "POST" None (Returns Scenario.credentials)) [] =
    (Ok {| body := body_text (JSON_stringify
             (VObj [("success", VBool true);
                    ("user", sanitized_user Scenario.row);
                    ("firebase_token", VStr "fresh-token");
                    ("refresh_token", VStr "refresh");
                    ("expires_in", VStr "3600")]));
           status := 200; headers := corsHeaders |},
     [signIn_call "webkey" (VStr "ann@example.org") (VStr "wrong-password");
      ESelect "users" "firebase_uid" (VStr "uid-new")]).
Proof.
  refine (proj2 (login_after_sign_in
                   (Scenario.world Scenario.full_env
                      (Scenario.replies true Scenario.token_bundle))
                   (Scenario.request "POST" None (Returns Scenario.credentials)) []
                   (More.context_of Scenario.store [("id", "7")])
                   Scenario.credentials Scenario.token_bundle "webkey"
                   {| ok := true; res_json := Returns Scenario.token_bundle |}
                   {| data := Scenario.row; error := VNull |}
                   _ _ _ _ _ _ _ _ _ _ _ _ _) _).
  all: try reflexivity; discriminate.
Defined.

(** ** Registration: the other paths *)


(** X13: a registration request whose body lacks a truthy [name], [email]
    or [password] is answered with status 400 and a fixed message, and one
    whose password is a string of fewer than six code units with status 400
    and [Password must be at least 6 characters long]; in both cases no
    account is created: no outside call is issued. *)
Theorem register_rejects_incomplete_body (w : World) (req : Request) (t : list event)
    (requestBody : value) :
  method req <> "OPTIONS" ->
  req_json req = Returns requestBody ->
  nullish requestBody = false ->
  (negb (truthy (prop requestBody "name")) || negb (truthy (prop requestBody "email"))
   || negb (truthy (prop requestBody "password")) = true ->
   Register.serve w req t =
     (Ok {| body := error_envelope
                      "Missing required fields: name, email, and password are required";
            status := 400; headers := Register.jsonHeaders |}, t))
  /\ (forall s,
        truthy (prop requestBody "name") = true ->
        truthy (prop requestBody "email") = true ->
        prop requestBody "password" = VStr s ->
        s <> EmptyString ->
        String.length s < 6 ->
        Register.serve w req t =
          (Ok {| body := error_envelope "Password must be at least 6 characters long";
                 status := 400; headers := Register.jsonHeaders |}, t)).
Proof.
  intros Hm Hjson Hn.
  assert (Hmeth : String.eqb (method req) "OPTIONS" = false)
    by (destruct (String.eqb_spec (method req) "OPTIONS"); [contradiction | reflexivity]).
  split.
  - intros Hmiss. unfold Register.serve. rewrite Hmeth, Hjson. cbn [lift].
    unfold try_catch, bind at 1, ret at 1.
    unfold bind at 1. rewrite (get_prop_defined _ _ _ Hn).
    unfold bind at 1. rewrite (get_prop_defined _ _ _ Hn).
    unfold bind at 1. rewrite (get_prop_defined _ _ _ Hn).
    rewrite Hmiss. reflexivity.
  - intros s Hname Hemail Hpw Hne Hshort.
    unfold Register.serve. rewrite Hmeth, Hjson. cbn [lift].
    unfold try_catch, bind at 1, ret at 1.
    unfold bind at 1. rewrite (get_prop_defined _ _ _ Hn).
    unfold bind at 1. rewrite (get_prop_defined _ _ _ Hn).
    unfold bind at 1. rewrite (get_prop_defined _ _ _ Hn).
    rewrite Hname, Hemail, Hpw.
    cbn [truthy]. destruct (String.eqb_spec s EmptyString) as [E | _]; [contradiction |].
    cbn [negb orb length_of Register.less_than].
    destruct (Z.ltb_spec (Z.of_nat (String.length s)) 6) as [_ | Hge]; [reflexivity | lia].
Qed.

Lemma register_rejects_incomplete_body_witness :
  Register.serve (Scenario.world Scenario.full_env (Scenario.replies true Scenario.token_bundle))
    (Scenario.request "POST" None
       (Returns (VObj [("name", VStr "Ann"); ("email", VStr "ann@example.org");
                       ("password", VStr "12345")])))
    [] =
    (Ok {| body := error_envelope "Password must be at least 6 characters long";
           status := 400; headers := Register.jsonHeaders |}, []).
Proof.
  refine (proj2 (register_rejects_incomplete_body
                   (Scenario.world Scenario.full_env
                      (Scenario.replies true Scenario.token_bundle))
                   (Scenario.request "POST" None
                      (Returns (VObj [("name", VStr "Ann");
                                      ("email", VStr "ann@example.org");
                                      ("password", VStr "12345")])))
                   []
                   (VObj [("name", VStr "Ann"); ("email", VStr "ann@example.org");
                          ("password", VStr "12345")])
                   _ _ _) "12345" _ _ _ _ _).
  all: try reflexivity; try discriminate.
  cbn. lia.
Defined.


Section RegistrationPaths.

Variables (w : World) (req : Request) (t : list event).
Variables (requestBody : value) (key : string).

Hypothesis Hm : method req <> "OPTIONS".
Hypothesis Hbody : req_json req = Returns requestBody.
Hypothesis Hname : truthy (prop requestBody "name") = true.
Hypothesis Hemail : truthy (prop requestBody "email") = true.
Hypothesis Hpassword : truthy (prop requestBody "password") = true.
Hypothesis Hlong :
  Register.less_than (length_of (prop requestBody "password")) 6 = false.
Hypothesis Hkey : Deno_env_get w "FIREBASE_WEB_API_KEY" = Some key.
Hypothesis Hkey_set : key <> EmptyString.

Lemma register_reaches_sign_up :
  Register.serve w req t =
    try_catch
      (firebaseResponse <-
         lift (fetch_reply w (Register.signUp_url key)
           (JSON_stringify (VObj [("email", prop requestBody "email");
                                  ("password", prop requestBody "password");
                                  ("displayName", prop requestBody "name");
                                  ("returnSecureToken", VBool true)]))) ;;
       if negb (ok firebaseResponse) then
         errorData <- lift (res_json firebaseResponse) ;;
         e <- get_prop errorData "error" ;;
         m <- opt_get e "message" ;;
         throw (new_Error (or_else m (VStr "Failed to create Firebase user")))
       else
         user <- lift (res_json firebaseResponse) ;;
         client <- lift (createClient w
                           (nullish_or (Deno_env_get w "SUPABASE_URL") EmptyString)
                           (nullish_or (Deno_env_get w "SUPABASE_SERVICE_ROLE_KEY")
                              EmptyString)) ;;
         localId <- get_prop user "localId" ;;
         r <- insert_single client "users"
                (VObj [("name", prop requestBody "name");
                       ("email", prop requestBody "email");
                       ("firebase_uid", localId)]) ;;
         if truthy (error r) then
           idToken <- get_prop user "idToken" ;;
           fetch w (Register.delete_url key)
             (JSON_stringify (VObj [("idToken", idToken)])) ;;
           m <- get_prop (error r) "message" ;;
           throw (ErrorObject ("Database error: " ++ to_string m))
         else
           id <- get_prop (data r) "id" ;;
           dbName <- get_prop (data r) "name" ;;
           dbEmail <- get_prop (data r) "email" ;;
           firebase_uid <- get_prop (data r) "firebase_uid" ;;
           created_at <- get_prop (data r) "created_at" ;;
           ret (new_Response
                  (JSON_stringify
                     (VObj [("success", VBool true);
                            ("user", VObj [("id", id); ("name", dbName);
                                           ("email", dbEmail);
                                           ("firebase_uid", firebase_uid);
                                           ("created_at", created_at)])]))
                  (Some 201%Z) Register.jsonHeaders))
      (fun error =>
         m <- message_of error ;;
         ret (new_Response
                (Register.error_body
                   (or_else m (VStr "Internal server error during registration")))
                (Some 500%Z) Register.jsonHeaders))
      (t ++ [signUp_call key (prop requestBody "name") (prop requestBody "email")
               (prop requestBody "password")])%list.
Proof.
  unfold Register.serve.
  destruct (String.eqb_spec (method req) "OPTIONS") as [E|_]; [contradiction|].
  pose proof (prop_truthy_not_nullish _ _ Hname) as Hb.
  unfold try_catch. rewrite Hbody. cbn [lift]. unfold bind at 1. unfold ret at 1.
  unfold bind at 1. rewrite (get_prop_defined _ _ _ Hb).
  unfold bind at 1. rewrite (get_prop_defined _ _ _ Hb).
  unfold bind at 1. rewrite (get_prop_defined _ _ _ Hb).
  rewrite Hname, Hemail, Hpassword. cbn [negb orb].
  rewrite Hlong. rewrite Hkey, (present_not_absent _ Hkey_set). cbn [str_of].
  unfold fetch at 1. unfold bind at 1 2. unfold emit at 1. unfold signUp_call.
  unfold bind at 5.
  reflexivity.
Qed.


(** X14: when the provider rejects the sign-up with a message, the answer
    has status 500 and that message; nothing is inserted and nothing is
    deleted. *)
Theorem register_sign_up_rejected (response : FetchResponse) (errorData : value)
    (m : string) :
  fetch_reply w (Register.signUp_url key)
    (JSON_stringify (VObj [("email", prop requestBody "email");
                           ("password", prop requestBody "password");
                           ("displayName", prop requestBody "name");
                           ("returnSecureToken", VBool true)])) = Returns response ->
  ok response = false ->
  res_json response = Returns errorData ->
  prop (prop errorData "error") "message" = VStr m ->
  m <> EmptyString ->
  Register.serve w req t =
    (Ok {| body := error_envelope m; status := 500; headers := Register.jsonHeaders |},
     (t ++ [signUp_call key (prop requestBody "name") (prop requestBody "email")
              (prop requestBody "password")])%list).
Proof.
  intros Hreply Hok Hjson Hmsg Hne.
  rewrite register_reaches_sign_up, Hreply.
  unfold try_catch. cbn [lift]. unfold bind at 1, ret at 1.
  rewrite Hok. cbn [negb]. rewrite Hjson. cbn [lift]. unfold bind at 1, ret at 1.
  assert (Hn : nullish errorData = false).
  { destruct errorData; try reflexivity; discriminate. }
  unfold bind at 1. rewrite (get_prop_defined _ _ _ Hn).
  unfold bind at 1. rewrite opt_get_prop, Hmsg.
  unfold throw, new_Error, or_else, message_of, bind, ret. cbn [truthy].
  destruct (String.eqb_spec m EmptyString) as [E | _]; [contradiction |].
  cbn [negb error_message to_string truthy].
  destruct (String.eqb_spec m EmptyString) as [E | _]; [contradiction |].
  reflexivity.
Qed.

(** X15: when the data-store client cannot be built after the account was
    created (the constructor throws, as it does on an empty endpoint), the
    answer has status 500 and the only outside call is the sign-up: the
    account that was just created is not deleted. *)
Theorem register_client_failure_keeps_account (response : FetchResponse) (user : value)
    (message : string) :
  fetch_reply w (Register.signUp_url key)
    (JSON_stringify (VObj [("email", prop requestBody "email");
                           ("password", prop requestBody "password");
                           ("displayName", prop requestBody "name");
                           ("returnSecureToken", VBool true)])) = Returns response ->
  ok response = true ->
  res_json response = Returns user ->
  createClient w (nullish_or (Deno_env_get w "SUPABASE_URL") EmptyString)
    (nullish_or (Deno_env_get w "SUPABASE_SERVICE_ROLE_KEY") EmptyString)
  = Raises message ->
  Register.serve w req t =
    (Ok {| body := body_text
                     (Register.error_body
                        (or_else (VStr message)
                           (VStr "Internal server error during registration")));
           status := 500; headers := Register.jsonHeaders |},
     (t ++ [signUp_call key (prop requestBody "name") (prop requestBody "email")
              (prop requestBody "password")])%list).
Proof.
  intros Hreply Hok Hjson Hclient.
  rewrite register_reaches_sign_up, Hreply.
  unfold try_catch. cbn [lift]. unfold bind at 1, ret at 1.
  rewrite Hok. cbn [negb]. rewrite Hjson. cbn [lift]. unfold bind at 1, ret at 1.
  rewrite Hclient. reflexivity.
Qed.

(** X16: when the sign-up and the insert both succeed, the answer has
    status 201 and a user object with the five fields id, name, email,
    firebase_uid and created_at of the inserted row; the row sent to the
    store holds the name, the email and the provider's [localId] (no
    password), and no account deletion is issued. *)
Theorem register_created (response : FetchResponse) (user : value)
    (client : SupabaseClient) (r : DbResult) :
  fetch_reply w (Register.signUp_url key)
    (JSON_stringify (VObj [("email", prop requestBody "email");
                           ("password", prop requestBody "password");
                           ("displayName", prop requestBody "name");
                           ("returnSecureToken", VBool true)])) = Returns response ->
  ok response = true ->
  res_json response = Returns user ->
  nullish user = false ->
  createClient w (nullish_or (Deno_env_get w "SUPABASE_URL") EmptyString)
    (nullish_or (Deno_env_get w "SUPABASE_SERVICE_ROLE_KEY") EmptyString)
  = Returns client ->
  insert_select_single client "users"
    (VObj [("name", prop requestBody "name"); ("email", prop requestBody "email");
           ("firebase_uid", prop user "localId")]) = r ->
  truthy (error r) = false ->
  nullish (data r) = false ->
  Register.serve w req t =
    (Ok {| body := body_text (JSON_stringify
             (VObj [("success", VBool true);
                    ("user", VObj [("id", prop (data r) "id");
                                   ("name", prop (data r) "name");
                                   ("email", prop (data r) "email");
                                   ("firebase_uid", prop (data r) "firebase_uid");
                                   ("created_at", prop (data r) "created_at")])]));
           status := 201; headers := Register.jsonHeaders |},
     (t ++ [signUp_call key (prop requestBody "name") (prop requestBody "email")
              (prop requestBody "password");
            EInsert "users"
              (VObj [("name", prop requestBody "name");
                     ("email", prop requestBody "email");
                     ("firebase_uid", prop user "localId")])])%list).
Proof.
  intros Hreply Hok Hjson Hn Hclient Hinsert Herr Hdata.
  rewrite register_reaches_sign_up, Hreply.
  unfold try_catch. cbn [lift]. unfold bind at 1, ret at 1.
  rewrite Hok. cbn [negb]. rewrite Hjson. cbn [lift]. unfold bind at 1, ret at 1.
  rewrite Hclient. cbn [lift]. unfold bind at 1, ret at 1.
  unfold bind at 1. rewrite (get_prop_defined _ _ _ Hn).
  unfold insert_single, bind at 1 2, emit, ret at 1. rewrite Hinsert, Herr.
  unfold bind. rewrite !(get_prop_defined _ _ _ Hdata).
  rewrite <- app_assoc. reflexivity.
Qed.

End RegistrationPaths.


Lemma register_sign_up_rejected_witness :
  Register.serve
    (Scenario.world Scenario.full_env
       (Scenario.replies false (Scenario.provider_error "EMAIL_EXISTS")))
    (Scenario.request "POST" None (Returns Scenario.credentials)) [] =
    (Ok {| body := error_envelope "EMAIL_EXISTS"; status := 500;
           headers := Register.jsonHeaders |},
     [signUp_call "webkey" (VStr "Ann") (VStr "ann@example.org") (VStr "wrong-password")]).
Proof.
  refine (register_sign_up_rejected
            (Scenario.world Scenario.full_env
               (Scenario.replies false (Scenario.provider_error "EMAIL_EXISTS")))
            (Scenario.request "POST" None (Returns Scenario.credentials)) []
            Scenario.credentials "webkey" _ _ _ _ _ _ _ _
            {| ok := false; res_json := Returns (Scenario.provider_error "EMAIL_EXISTS") |}
            (Scenario.provider_error "EMAIL_EXISTS") "EMAIL_EXISTS" _ _ _ _ _).
  all: try reflexivity; discriminate.
Defined.

Lemma register_client_failure_keeps_account_witness :
  Register.serve
    (More.world_without_store [("FIREBASE_WEB_API_KEY", "webkey")]
       (Scenario.replies true Scenario.token_bundle))
    (Scenario.request "POST" None (Returns Scenario.credentials)) [] =
    (Ok {| body := error_envelope "supabaseUrl is required."; status := 500;
           headers := Register.jsonHeaders |},
     [signUp_call "webkey" (VStr "Ann") (VStr "ann@example.org") (VStr "wrong-password")]).
Proof.
  refine (register_client_failure_keeps_account
            (More.world_without_store [("FIREBASE_WEB_API_KEY", "webkey")]
               (Scenario.replies true Scenario.token_bundle))
            (Scenario.request "POST" None (Returns Scenario.credentials)) []
            Scenario.credentials "webkey" _ _ _ _ _ _ _ _
            {| ok := true; res_json := Returns Scenario.token_bundle |}
            Scenario.token_bundle "supabaseUrl is required." _ _ _ _).
  all: try reflexivity; discriminate.
Defined.

Lemma register_created_witness :
  Register.serve
    (More.world_on More.empty_store [] Scenario.full_env
       (Scenario.replies true Scenario.token_bundle))
    (Scenario.request "POST" None (Returns Scenario.credentials)) [] =
    (Ok {| body := body_text (JSON_stringify
             (VObj [("success", VBool true);
                    ("user", VObj [("id", VUndefined); ("name", VStr "Ann");
                                   ("email", VStr "ann@example.org");
                                   ("firebase_uid", VStr "uid-new");
                                   ("created_at", VUndefined)])]));
           status := 201; headers := Register.jsonHeaders |},
     [signUp_call "webkey" (VStr "Ann") (VStr "ann@example.org") (VStr "wrong-password");
      EInsert "users"
        (VObj [("name", VStr "Ann"); ("email", VStr "ann@example.org");
               ("firebase_uid", VStr "uid-new")])]).
Proof.
  refine (register_created
            (More.world_on More.empty_store [] Scenario.full_env
               (Scenario.replies true Scenario.token_bundle))
            (Scenario.request "POST" None (Returns Scenario.credentials)) []
            Scenario.credentials "webkey" _ _ _ _ _ _ _ _
            {| ok := true; res_json := Returns Scenario.token_bundle |}
            Scenario.token_bundle More.empty_store
            {| data := VObj [("name", VStr "Ann"); ("email", VStr "ann@example.org");
                             ("firebase_uid", VStr "uid-new")];
               error := VNull |}
            _ _ _ _ _ _ _ _).
  all: try reflexivity; discriminate.
Defined.

(** ** The endpoints with the pipeline written in line *)

(** X17: the get-user endpoint written in line answers 401 to every
    request it cannot authenticate: [Unauthorized: No token provided] when
    the Authorization header is absent or does not start with [Bearer ], and
    [Unauthorized: Invalid token] whenever its verification of the rest of
    the header fails, for whatever reason (provider key not set, network
    failure, non-2xx reply, reply that is not JSON, no account). The token
    is the rest of the header as it is, white space included. *)

Theorem inline_get_user_answers_401 (w : World) (req : Request) (t : list event) :
  method req <> "OPTIONS" ->
  (absent (authorization req)
   || negb (startsWith (str_of (authorization req)) "Bearer ") = true ->
   InlineGetUser.serve w req t =
     (Ok {| body := error_envelope "Unauthorized: No token provided";
            status := 401; headers := InlineGetUser.jsonHeaders |}, t))
  /\ (forall header e t1,
        authorization req = Some header ->
        startsWith header "Bearer " = true ->
        InlineGetUser.verifyFirebaseToken w (drop 7 header) t = (Throw e, t1) ->
        InlineGetUser.serve w req t =
          (Ok {| body := error_envelope "Unauthorized: Invalid token";
                 status := 401; headers := InlineGetUser.jsonHeaders |}, t1)).
Proof.
  intros Hm.
  assert (Hmeth : String.eqb (method req) "OPTIONS" = false)
    by (destruct (String.eqb_spec (method req) "OPTIONS"); [contradiction | reflexivity]).
  split.
  - intros Hbad. unfold InlineGetUser.serve. rewrite Hmeth, Hbad. reflexivity.
  - intros header e t1 Hh Hs Hver.
    unfold InlineGetUser.serve. rewrite Hmeth, Hh. cbn [str_of absent]. rewrite Hs.
    assert (Hne : String.eqb header EmptyString = false) by (destruct header; [discriminate | reflexivity]).
    rewrite Hne. cbn [negb orb].
    rewrite (replace_prefix header "Bearer " EmptyString Hs).
    cbn [String.length append].
    unfold InlineGetUser.verified_or_response, try_catch, bind at 1 2.
    rewrite Hver. reflexivity.
Qed.

Lemma inline_get_user_answers_401_witness :
  InlineGetUser.serve
    (Scenario.world Scenario.full_env (Scenario.replies true Scenario.no_accounts))
    (Scenario.request "GET" (Some "Bearer tok") Scenario.no_body) [] =
    (Ok {| body := error_envelope "Unauthorized: Invalid token";
           status := 401; headers := InlineGetUser.jsonHeaders |},
     [lookup_call "webkey" "tok"]).
Proof.
  refine (proj2 (inline_get_user_answers_401
                   (Scenario.world Scenario.full_env
                      (Scenario.replies true Scenario.no_accounts))
                   (Scenario.request "GET" (Some "Bearer tok") Scenario.no_body) [] _)
            "Bearer tok" (ErrorObject "Invalid token") [lookup_call "webkey" "tok"]
            _ _ _).
  all: try reflexivity; discriminate.
Defined.

(** X18: the get-user endpoint written in line keeps the ownership check:
    for a verified account and a record that is found, the answer is 200 with
    the six sanitized fields when the record's [firebase_uid] is the
    account's [localId], and 403 [Forbidden: You can only access your own
    user data] otherwise. *)

Theorem inline_get_user_checks_ownership (w : World) (req : Request) (t t1 : list event)
    (header id : string) (user : value) (u : URL) (client : SupabaseClient)
    (r : DbResult) :
  method req <> "OPTIONS" ->
  authorization req = Some header ->
  startsWith header "Bearer " = true ->
  InlineGetUser.verifyFirebaseToken w (drop 7 header) t = (Ok user, t1) ->
  nullish user = false ->
  new_URL w (req_url req) = Returns u ->
  lookup "id" (searchParams u) = Some id ->
  id <> EmptyString ->
  createClient w (nullish_or (Deno_env_get w "SUPABASE_URL") EmptyString)
    (nullish_or (Deno_env_get w "SUPABASE_SERVICE_ROLE_KEY") EmptyString)
  = Returns client ->
  select_eq_single client "users" "id" (VStr id) = r ->
  truthy (error r) = false ->
  truthy (data r) = true ->
  InlineGetUser.serve w req t =
    (Ok (if strict_eq (prop (data r) "firebase_uid") (prop user "localId")
         then {| body := body_text (JSON_stringify
                   (VObj [("success", VBool true);
                          ("user", sanitized_user (data r));
                          ("authenticated_as",
                           VObj [("email", prop user "email");
                                 ("firebase_uid", prop user "localId")])]));
                 status := 200; headers := InlineGetUser.jsonHeaders |}
         else {| body := error_envelope
                           "Forbidden: You can only access your own user data";
                 status := 403; headers := InlineGetUser.jsonHeaders |}),
     (t1 ++ [ESelect "users" "id" (VStr id)])%list).
Proof.
  intros Hm Hh Hs Hver Hn Hurl Hid Hne Hclient Hsel Herr Hdata.
  assert (Hmeth : String.eqb (method req) "OPTIONS" = false)
    by (destruct (String.eqb_spec (method req) "OPTIONS"); [contradiction | reflexivity]).
  unfold InlineGetUser.serve. rewrite Hmeth, Hh. cbn [str_of absent]. rewrite Hs.
  assert (Hne' : String.eqb header EmptyString = false) by (destruct header; [discriminate | reflexivity]).
  rewrite Hne'. cbn [negb orb].
  rewrite (replace_prefix header "Bearer " EmptyString Hs).
  cbn [String.length append].
  unfold InlineGetUser.verified_or_response, try_catch, bind at 1 2.
  rewrite Hver. unfold ret at 1. rewrite Hurl. cbn [lift].
  unfold bind at 1, ret at 1. rewrite Hid, (present_not_absent _ Hne). cbn [str_of].
  rewrite Hclient. cbn [lift]. unfold bind at 1, ret at 1.
  unfold select_single, bind at 1 2, emit, ret at 1. rewrite Hsel, Herr, Hdata.
  cbn [negb orb].
  pose proof (truthy_not_nullish _ Hdata) as Hd.
  unfold bind at 1. rewrite (get_prop_defined _ _ _ Hd).
  unfold bind at 1. rewrite (get_prop_defined _ _ _ Hn).
  destruct (strict_eq (prop (data r) "firebase_uid") (prop user "localId")); cbn [negb].
  - unfold bind. rewrite !(get_prop_defined _ _ _ Hd), !(get_prop_defined _ _ _ Hn).
    reflexivity.
  - reflexivity.
Qed.

Lemma inline_get_user_checks_ownership_witness :
  InlineGetUser.serve
    (Scenario.world Scenario.full_env
       (Scenario.replies true (Scenario.one_account "uid-bob")))
    (Scenario.request "GET" (Some "Bearer tok") Scenario.no_body) [] =
    (Ok {| body := error_envelope "Forbidden: You can only access your own user data";
           status := 403; headers := InlineGetUser.jsonHeaders |},
     [lookup_call "webkey" "tok"; ESelect "users" "id" (VStr "7")]).
Proof.
  refine (inline_get_user_checks_ownership
            (Scenario.world Scenario.full_env
               (Scenario.replies true (Scenario.one_account "uid-bob")))
            (Scenario.request "GET" (Some "Bearer tok") Scenario.no_body)
            [] [lookup_call "webkey" "tok"] "Bearer tok" "7"
            (Scenario.account "uid-bob") {| searchParams := [("id", "7")] |}
            Scenario.store {| data := Scenario.row; error := VNull |}
            _ _ _ _ _ _ _ _ _ _ _ _).
  all: try reflexivity; discriminate.
Defined.

(** X19: whatever the environment, the request and the providers' answers
    are, the get-user endpoint written in line settles with a response whose
    status is one of 200, 400, 401, 403, 404 and 500, after no outside call,
    one account lookup, or one account lookup followed by one select on the
    users table. *)

Theorem inline_get_user_call_sequences (w : World) (req : Request) (t : list event) :
  exists resp ext,
    InlineGetUser.serve w req t = (Ok resp, (t ++ ext)%list)
    /\ get_user_calls ext
    /\ In (status resp) [200; 400; 401; 403; 404; 500]%Z.
Proof.
  cbv beta zeta delta [InlineGetUser.serve InlineGetUser.verified_or_response
    InlineGetUser.verifyFirebaseToken select_single
    try_catch bind fetch emit lift get_prop opt_get message_of ret throw
    type_error_read].
  run_all.
  all: try discriminate.
  all: settle_trace.
  all: (split; [| cbn; tauto]).
  all: unfold get_user_calls, lookup_call.
  all: try (left; reflexivity).
  all: try (right; left; eexists; eexists; reflexivity).
  all: try (right; right; eexists; eexists; eexists; reflexivity).
Qed.

(** X20: the login endpoint written in line answers 401 when the provider
    rejects the credentials, with the provider's message, or with [Invalid
    login credentials] when the reply carries none; the store is not
    queried. *)

Theorem inline_login_rejected (w : World) (req : Request) (t : list event)
    (requestBody errorData : value) (key : string) (response : FetchResponse) :
  method req <> "OPTIONS" ->
  req_json req = Returns requestBody ->
  truthy (prop requestBody "email") = true ->
  truthy (prop requestBody "password") = true ->
  Deno_env_get w "FIREBASE_WEB_API_KEY" = Some key ->
  key <> EmptyString ->
  fetch_reply w (signIn_url key)
    (JSON_stringify (VObj [("email", prop requestBody "email");
                           ("password", prop requestBody "password");
                           ("returnSecureToken", VBool true)])) = Returns response ->
  ok response = false ->
  res_json response = Returns errorData ->
  nullish errorData = false ->
  InlineLogin.serve w req t =
    (Ok {| body := body_text (JSON_stringify
             (VObj [("error",
                     or_else (prop (prop errorData "error") "message")
                       (VStr "Invalid login credentials"))]));
           status := 401; headers := InlineLogin.jsonHeaders |},
     (t ++ [signIn_call key (prop requestBody "email") (prop requestBody "password")])%list).
Proof.
  intros Hm Hjson He Hp Hkey Hset Hreply Hok Hrj Hn.
  assert (Hmeth : String.eqb (method req) "OPTIONS" = false)
    by (destruct (String.eqb_spec (method req) "OPTIONS"); [contradiction | reflexivity]).
  pose proof (prop_truthy_not_nullish _ _ He) as Hb.
  unfold InlineLogin.serve. rewrite Hmeth, Hjson. cbn [lift].
  unfold try_catch, bind at 1, ret at 1.
  unfold bind at 1. rewrite (get_prop_defined _ _ _ Hb).
  unfold bind at 1. rewrite (get_prop_defined _ _ _ Hb).
  rewrite He, Hp. cbn [negb orb].
  rewrite Hkey, (present_not_absent _ Hset). cbn [str_of].
  unfold fetch, bind at 1 2, emit. rewrite Hreply. cbn [lift]. unfold ret at 1.
  rewrite Hok. cbn [negb]. rewrite Hrj. cbn [lift]. unfold bind at 1, ret at 1.
  unfold bind at 1. rewrite (get_prop_defined _ _ _ Hn).
  unfold bind at 1. rewrite opt_get_prop. reflexivity.
Qed.

Lemma inline_login_rejected_witness :
  InlineLogin.serve
    (Scenario.world Scenario.full_env
       (Scenario.replies false (Scenario.provider_error "INVALID_PASSWORD")))
    (Scenario.request "POST" None (Returns Scenario.credentials)) [] =
    (Ok {| body := error_envelope "INVALID_PASSWORD";
           status := 401; headers := InlineLogin.jsonHeaders |},
     [signIn_call "webkey" (VStr "ann@example.org") (VStr "wrong-password")]).
Proof.
  refine (inline_login_rejected
            (Scenario.world Scenario.full_env
               (Scenario.replies false (Scenario.provider_error "INVALID_PASSWORD")))
            (Scenario.request "POST" None (Returns Scenario.credentials)) []
            Scenario.credentials (Scenario.provider_error "INVALID_PASSWORD") "webkey"
            {| ok := false;
               res_json := Returns (Scenario.provider_error "INVALID_PASSWORD") |}
            _ _ _ _ _ _ _ _ _ _).
  all: try reflexivity; discriminate.
Defined.

(** X21: whatever the environment, the request and the providers' answers
    are, the login endpoint written in line settles with a response whose
    status is one of 200, 400, 401, 404 and 500, after no outside call, one
    password sign-in, or one sign-in followed by one select on the users
    table. *)

Theorem inline_login_call_sequences (w : World) (req : Request) (t : list event) :
  exists resp ext,
    InlineLogin.serve w req t = (Ok resp, (t ++ ext)%list)
    /\ login_calls ext
    /\ In (status resp) [200; 400; 401; 404; 500]%Z.
Proof.
  cbv beta zeta delta [InlineLogin.serve select_single
    try_catch bind fetch emit lift get_prop opt_get message_of ret throw
    type_error_read].
  run_all.
  all: try discriminate.
  all: settle_trace.
  all: (split; [| cbn; tauto]).
  all: unfold login_calls, signIn_call.
  all: try (left; reflexivity).
  all: try (right; left; eexists; eexists; eexists; reflexivity).
  all: try (right; right; eexists; eexists; eexists; eexists; reflexivity).
Qed.

(** ** sanitizeUserData *)

(** X22: on a row that is neither [null] nor [undefined],
    [sanitizeUserData] returns an object in which each of the six fields id,
    name, email, firebase_uid, created_at and updated_at has the value the
    row has for it, and every other field of the row is absent; sanitizing
    the result again changes nothing. *)
Theorem sanitizeUserData_projects (user : value) (t : list event) :
  nullish user = false ->
  exists sanitized,
    sanitizeUserData user t = (Ok sanitized, t)
    /\ (forall k, prop sanitized k =
                  if existsb (String.eqb k) sanitized_fields then prop user k
                  else VUndefined)
    /\ sanitizeUserData sanitized t = (Ok sanitized, t).
Proof.
  intros Hn. exists (sanitized_user user).
  split; [apply sanitizeUserData_defined; exact Hn |]. split.
  - intros k. unfold sanitized_user, sanitized_fields. cbn [prop lookup existsb].
    destruct (String.eqb_spec k "id") as [-> | _]; [reflexivity |].
    destruct (String.eqb_spec k "name") as [-> | _]; [reflexivity |].
    destruct (String.eqb_spec k "email") as [-> | _]; [reflexivity |].
    destruct (String.eqb_spec k "firebase_uid") as [-> | _]; [reflexivity |].
    destruct (String.eqb_spec k "created_at") as [-> | _]; [reflexivity |].
    destruct (String.eqb_spec k "updated_at") as [-> | _]; reflexivity.
  - rewrite sanitizeUserData_defined by reflexivity. reflexivity.
Qed.

Lemma sanitizeUserData_projects_witness :
  exists sanitized,
    sanitizeUserData Scenario.row [] = (Ok sanitized, [])
    /\ (forall k, prop sanitized k =
                  if existsb (String.eqb k) sanitized_fields then prop Scenario.row k
                  else VUndefined)
    /\ sanitizeUserData sanitized [] = (Ok sanitized, []).
Proof. apply (sanitizeUserData_projects Scenario.row []). reflexivity. Defined.

(** ** The token that reaches the provider *)

Lemma trimEnd_cons (c : ascii) (s : string) :
  trimEnd (String c s) =
    match trimEnd s with
    | EmptyString => if is_white_space c then EmptyString else String c EmptyString
    | kept => String c kept
    end.
Proof. reflexivity. Qed.

Lemma trimEnd_idempotent (s : string) : trimEnd (trimEnd s) = trimEnd s.
Proof.
  induction s as [| c s IH]; [reflexivity |].
  rewrite trimEnd_cons. destruct (trimEnd s) as [| d kept] eqn:E.
  - destruct (is_white_space c) eqn:Hc; [reflexivity |].
    rewrite trimEnd_cons. cbn [trimEnd]. rewrite Hc. reflexivity.
  - rewrite trimEnd_cons, IH. reflexivity.
Qed.

Lemma trimEnd_keeps_head (c : ascii) (s : string) :
  is_white_space c = false -> exists kept, trimEnd (String c s) = String c kept.
Proof.
  intros Hc. cbn [trimEnd]. destruct (trimEnd s).
  - rewrite Hc. eexists. reflexivity.
  - eexists. reflexivity.
Qed.

Lemma trimStart_head (s : string) :
  trimStart s = EmptyString
  \/ exists c rest, trimStart s = String c rest /\ is_white_space c = false.
Proof.
  induction s as [| c s IH]; [left; reflexivity |].
  cbn [trimStart]. destruct (is_white_space c) eqn:Hc; [exact IH |].
  right. exists c, s. split; [reflexivity | exact Hc].
Qed.

Lemma trim_idempotent (s : string) : trim (trim s) = trim s.
Proof.
  unfold trim. destruct (trimStart_head s) as [-> | [c [rest [-> Hc]]]]; [reflexivity |].
  destruct (trimEnd_keeps_head c rest Hc) as [kept Hk].
  rewrite Hk. cbn [trimStart]. rewrite Hc. rewrite <- Hk. apply trimEnd_idempotent.
Qed.
(** X23: the extraction of the bearer token issues at most one outside
    call, an account lookup; the token that lookup carries is never empty and
    has no white space at either end, and the lookup is only issued when the
    provider key is set. *)
Theorem provider_sees_trimmed_token (w : World) (req : Request) (t : list event) :
  snd (extractAndVerifyToken w req t) = t
  \/ exists key token,
       snd (extractAndVerifyToken w req t) = (t ++ [lookup_call key token])%list
       /\ token <> EmptyString
       /\ trim token = token
       /\ Deno_env_get w "FIREBASE_WEB_API_KEY" = Some key
       /\ key <> EmptyString.
Proof.
  unfold extractAndVerifyToken.
  destruct (absent (authorization req)
            || negb (startsWith (str_of (authorization req)) "Bearer "));
    [left; reflexivity |].
  destruct (String.eqb_spec
              (trim (replace (str_of (authorization req)) "Bearer " EmptyString))
              EmptyString) as [_ | Hne]; [left; reflexivity |].
  unfold verifyFirebaseToken.
  destruct (Deno_env_get w "FIREBASE_WEB_API_KEY") as [key |] eqn:Hkey;
    [| left; reflexivity].
  cbn [absent str_of].
  destruct (String.eqb_spec key EmptyString) as [_ | Hset]; [left; reflexivity |].
  right. exists key, (trim (replace (str_of (authorization req)) "Bearer " EmptyString)).
  split; [| split; [exact Hne | split; [apply trim_idempotent | split; [reflexivity | exact Hset]]]].
  unfold try_catch, fetch, bind, emit, lookup_call.
  destruct (fetch_reply w _ _) as [response | m]; cbn [lift]; [| reflexivity].
  unfold ret at 1.
  destruct (ok response); cbn [negb].
  - destruct (res_json response) as [data | m]; cbn [lift]; [| reflexivity].
    unfold ret at 1. unfold get_prop. destruct (nullish data); [reflexivity |].
    unfold ret at 1.
    destruct (negb (truthy (prop data "users"))
              || strict_eq (length_of (prop data "users")) (VNum 0));
      reflexivity.
  - destruct (res_json response) as [data | m]; cbn [lift]; [| reflexivity].
    unfold ret at 1. unfold get_prop. destruct (nullish data); [reflexivity |].
    unfold ret at 1. unfold opt_get.
    destruct (nullish (prop data "error")); reflexivity.
Qed.

(** X24: when the authentication of a get-user request fails, the answer is
    the error response of the failure's message and no outside call follows
    the authentication: the store is not queried for a request that is not
    authenticated. *)
Theorem get_user_rejects_before_store (w : World) (req : Request) (t t1 : list event)
    (context : MiddlewareContext) (e : thrown) :
  method req <> "OPTIONS" ->
  validate_env w {| requireAuth := true; validateEnv := true |} t = (Ok tt, t) ->
  create_context w req t = (Ok context, t) ->
  extractAndVerifyToken w req t = (Throw e, t1) ->
  exists message,
    e = ErrorObject message
    /\ get_user w req t =
         (Ok {| body := error_envelope (shown_message message);
                status := spec_status message; headers := corsHeaders |}, t1).
Proof.
  intros Hm Hv Hc He.
  destruct e as [message | v];
    [| exfalso; exact (teo_extractAndVerifyToken w req _ _ _ He)].
  exists message. split; [reflexivity |].
  unfold get_user. rewrite (withMiddleware_past_context _ _ _ _ _ _ Hm Hv Hc).
  apply (authentication_failure w req get_user_handler _ t t1 context message);
    [reflexivity | exact He].
Qed.

Lemma get_user_rejects_before_store_witness :
  exists message,
    ErrorObject "Unauthorized: Empty token provided" = ErrorObject message
    /\ get_user
         (Scenario.world Scenario.full_env
            (Scenario.replies true (Scenario.one_account "uid-ann")))
         (Scenario.request "GET" (Some "Bearer ") Scenario.no_body) [] =
         (Ok {| body := error_envelope (shown_message message);
                status := spec_status message; headers := corsHeaders |}, []).
Proof.
  apply (get_user_rejects_before_store
           (Scenario.world Scenario.full_env
              (Scenario.replies true (Scenario.one_account "uid-ann")))
           (Scenario.request "GET" (Some "Bearer ") Scenario.no_body) [] []
           (More.context_of Scenario.store [("id", "7")])
           (ErrorObject "Unauthorized: Empty token provided")).
  all: try reflexivity; discriminate.
Defined.
